(** * Gesture-Paper-Burner: the gesture pipeline and the paper life cycle

    A shallow embedding of the two TypeScript classes that make up the core of
    the toy:

    - [GestureService.processGesture] and [GestureService.dist]
      (hand landmarks to a gesture type and a proximity value);
    - [AppComponent]: [handleGameLoop], [triggerCrumple], [burnPaper],
      [generateSparks], [triggerUpload], [onFileSelected], [onDrop],
      [handleFile] and [reset].

    How the JavaScript is read:

    - numbers are IEEE 754 binary64 values, here Rocq's primitive floats, so
      the literals ([0.15], [0.05], ...) denote the same doubles as in the
      source; [Math.pow(v, 2)] is taken to be the product [v * v];
    - [gestureHoldCounter] only ever holds small non-negative integers and
      lives in [N];
    - a signal is the field that holds its value; writes of [paperState] are
      also recorded in an effect log, together with the calls into
      [AudioService], the DOM, and the component's own [triggerCrumple] and
      [burnPaper];
    - [setTimeout] adds to a queue of pending timers, and time passes in
      explicit steps ([elapse]) that run the timers that have become due;
    - [Math.random], where the component calls it, reads the next value of a
      stream of doubles: the results its own calls receive, in order;
    - reading a property of [undefined] ends the call with a [TypeError];
      what was written before stays written. *)

From Stdlib Require Import String List Bool NArith Lia.
From Stdlib Require Import Floats.PrimFloat.
Import ListNotations.

Set Warnings "-inexact-float".
Local Open Scope N_scope.

(** ** Enumerations *)

Inductive PaperState : Type :=
  | IDLE | ACTIVE | CRUMPLED_1 | CRUMPLED_2 | CRUMPLED_FINAL | BURNING | ASHES.

Inductive GestureType : Type :=
  | NONE | FIST | OPEN_PALM.

(** The [===] comparison of two string-literal tags. *)
Definition PaperState_eqb (s t : PaperState) : bool :=
  match s, t with
  | IDLE, IDLE | ACTIVE, ACTIVE | CRUMPLED_1, CRUMPLED_1
  | CRUMPLED_2, CRUMPLED_2 | CRUMPLED_FINAL, CRUMPLED_FINAL
  | BURNING, BURNING | ASHES, ASHES => true
  | _, _ => false
  end.

Definition GestureType_eqb (g h : GestureType) : bool :=
  match g, h with
  | NONE, NONE | FIST, FIST | OPEN_PALM, OPEN_PALM => true
  | _, _ => false
  end.

(** ** Data of the component *)

(** A CSS time such as [`${t}s`]: the number is kept, the suffix is implied. *)
Inductive CssTime : Type := Seconds (t : float).

Record Spark : Type := mkSpark {
  spark_x : float;
  spark_y : float;
  spark_tx : float;
  spark_ty : float;
  spark_scale : float;
  spark_delay : CssTime;
  spark_duration : CssTime
}.

Record File : Type := mkFile { file_name : string; file_type : string }.

(** The two callbacks that the component hands to [setTimeout]. *)
Inductive TimerTask : Type :=
  | ShakeOff   (* () => this.isShaking.set(false) *)
  | BurnOut.   (* () => { this.paperState.set('ASHES'); this.sparks.set([]) } *)

Record Timer : Type := mkTimer { due : N; task : TimerTask }.

(** What the component does to its collaborators and which of its own
    methods and signal writes ran, most recent first. *)
Inductive Effect : Type :=
  | CallTriggerCrumple
  | CallBurnPaper
  | SetPaperState (s : PaperState)
  | AudioInit
  | AudioStartMusic
  | AudioStopMusic
  | AudioPlayCrumple
  | AudioPlayBurn
  | FileInputClick
  | FileInputClear
  | PreventDefault
  | StopPropagation.

Record App : Type := mkApp {
  (* App State *)
  paperState : PaperState;
  fileName : string;
  fileType : string;
  (* Visual Effects State *)
  isShaking : bool;
  sparks : list Spark;
  (* Interaction Logic State *)
  gestureHoldCounter : N;
  canCrumple : bool;
  (* The environment: time, pending timers, Math.random, effect log *)
  clock : N;
  timers : list Timer;
  entropy : nat -> float;
  drawn : nat;
  log : list Effect
}.

(** Field updates. *)
Definition with_paperState (v : PaperState) (a : App) : App :=
  mkApp v (fileName a) (fileType a) (isShaking a) (sparks a)
        (gestureHoldCounter a) (canCrumple a)
        (clock a) (timers a) (entropy a) (drawn a) (log a).

Definition with_fileName (v : string) (a : App) : App :=
  mkApp (paperState a) v (fileType a) (isShaking a) (sparks a)
        (gestureHoldCounter a) (canCrumple a)
        (clock a) (timers a) (entropy a) (drawn a) (log a).

Definition with_fileType (v : string) (a : App) : App :=
  mkApp (paperState a) (fileName a) v (isShaking a) (sparks a)
        (gestureHoldCounter a) (canCrumple a)
        (clock a) (timers a) (entropy a) (drawn a) (log a).

Definition with_isShaking (v : bool) (a : App) : App :=
  mkApp (paperState a) (fileName a) (fileType a) v (sparks a)
        (gestureHoldCounter a) (canCrumple a)
        (clock a) (timers a) (entropy a) (drawn a) (log a).

Definition with_sparks (v : list Spark) (a : App) : App :=
  mkApp (paperState a) (fileName a) (fileType a) (isShaking a) v
        (gestureHoldCounter a) (canCrumple a)
        (clock a) (timers a) (entropy a) (drawn a) (log a).

Definition with_gestureHoldCounter (v : N) (a : App) : App :=
  mkApp (paperState a) (fileName a) (fileType a) (isShaking a) (sparks a)
        v (canCrumple a)
        (clock a) (timers a) (entropy a) (drawn a) (log a).

Definition with_canCrumple (v : bool) (a : App) : App :=
  mkApp (paperState a) (fileName a) (fileType a) (isShaking a) (sparks a)
        (gestureHoldCounter a) v
        (clock a) (timers a) (entropy a) (drawn a) (log a).

Definition with_clock (v : N) (a : App) : App :=
  mkApp (paperState a) (fileName a) (fileType a) (isShaking a) (sparks a)
        (gestureHoldCounter a) (canCrumple a)
        v (timers a) (entropy a) (drawn a) (log a).

Definition with_timers (v : list Timer) (a : App) : App :=
  mkApp (paperState a) (fileName a) (fileType a) (isShaking a) (sparks a)
        (gestureHoldCounter a) (canCrumple a)
        (clock a) v (entropy a) (drawn a) (log a).

Definition with_drawn (v : nat) (a : App) : App :=
  mkApp (paperState a) (fileName a) (fileType a) (isShaking a) (sparks a)
        (gestureHoldCounter a) (canCrumple a)
        (clock a) (timers a) (entropy a) v (log a).

Definition emit (e : Effect) (a : App) : App :=
  mkApp (paperState a) (fileName a) (fileType a) (isShaking a) (sparks a)
        (gestureHoldCounter a) (canCrumple a)
        (clock a) (timers a) (entropy a) (drawn a) (e :: log a).

(** ** Environment primitives *)

(** [this.paperState.set(s)]: the signal write, recorded in the log. *)
Definition paperState_set (s : PaperState) (a : App) : App :=
  emit (SetPaperState s) (with_paperState s a).

(** [setTimeout(cb, ms)]: the callback joins the pending timers, due [ms]
    milliseconds after the current time. *)
Definition setTimeout (cb : TimerTask) (ms : N) (a : App) : App :=
  with_timers (timers a ++ [mkTimer (clock a + ms) cb]) a.

(** [Math.random()] as the component calls it: the next value of the stream
    of results it is handed.  The generator is shared with [AudioService];
    [entropy] lists the component's own results only and [drawn] counts its
    own calls only. *)
Definition Math_random (a : App) : float * App :=
  (entropy a (drawn a), with_drawn (S (drawn a)) a).

(** ** AppComponent *)

Definition triggerCrumple (a : App) : App :=
  let a := emit CallTriggerCrumple a in
  let current := paperState a in
  let '(a, changed) :=
    if PaperState_eqb current ACTIVE then (paperState_set CRUMPLED_1 a, true)
    else if PaperState_eqb current CRUMPLED_1 then (paperState_set CRUMPLED_2 a, true)
    else if PaperState_eqb current CRUMPLED_2 then (paperState_set CRUMPLED_FINAL a, true)
    else (a, false) in
  if changed then
    let a := emit AudioPlayCrumple a in
    let a := with_isShaking true a in
    setTimeout ShakeOff 400 a
  else a.

(** One spark: seven draws, in the order of the object literal. *)
Definition newSpark (a : App) : Spark * App :=
  let '(r1, a) := Math_random a in
  let '(r2, a) := Math_random a in
  let '(r3, a) := Math_random a in
  let '(r4, a) := Math_random a in
  let '(r5, a) := Math_random a in
  let '(r6, a) := Math_random a in
  let '(r7, a) := Math_random a in
  (mkSpark (50 + (r1 * 40 - 20))%float
           (60 + (r2 * 20 - 10))%float
           (r3 * 200 - 100)%float
           (- (r4 * 200 + 100))%float
           (r5 * 1.5 + 0.5)%float
           (Seconds (r6 * 0.5)%float)
           (Seconds (r7 * 1 + 0.5)%float),
   a).

(** The [for (let i = 0; i < 40; i++)] loop, [n] iterations left. *)
Fixpoint sparksLoop (n : nat) (newSparks : list Spark) (a : App)
  : list Spark * App :=
  match n with
  | O => (newSparks, a)
  | S n' =>
      let '(s, a) := newSpark a in
      sparksLoop n' (newSparks ++ [s]) a
  end.

Definition generateSparks (a : App) : App :=
  let '(newSparks, a) := sparksLoop 40 [] a in
  with_sparks newSparks a.

Definition burnPaper (a : App) : App :=
  let a := emit CallBurnPaper a in
  if PaperState_eqb (paperState a) BURNING || PaperState_eqb (paperState a) ASHES
  then a
  else
    let a := paperState_set BURNING a in
    let a := emit AudioPlayBurn a in
    let a := generateSparks a in
    setTimeout BurnOut 2500 a.

Definition handleGameLoop (gesture : GestureType) (proximity : float) (a : App)
  : App :=
  let a :=
    if GestureType_eqb gesture OPEN_PALM || GestureType_eqb gesture NONE
    then with_canCrumple true a else a in
  (* Crumpling Logic *)
  let a :=
    if GestureType_eqb gesture FIST && canCrumple a then
      let a := with_gestureHoldCounter (gestureHoldCounter a + 1) a in
      if 5 <? gestureHoldCounter a then
        let a := triggerCrumple a in
        let a := with_gestureHoldCounter 0 a in
        with_canCrumple false a
      else a
    else with_gestureHoldCounter 0 a in
  (* Burning Logic *)
  if PaperState_eqb (paperState a) CRUMPLED_FINAL then
    if GestureType_eqb gesture OPEN_PALM && (0.15 <? proximity)%float
    then burnPaper a else a
  else a.

Definition triggerUpload (a : App) : App :=
  if PaperState_eqb (paperState a) IDLE then
    let a := emit AudioInit a in
    emit FileInputClick a
  else a.

Definition handleFile (file : File) (a : App) : App :=
  let a := with_fileName (file_name file) a in
  let a := with_fileType (file_type file) a in
  let a := paperState_set ACTIVE a in
  emit AudioStartMusic a.

(** [files] is [input.files]: [None] for [null], else the chosen files. *)
Definition onFileSelected (files : option (list File)) (a : App) : App :=
  let a :=
    match files with
    | Some (f :: _) => handleFile f a
    | _ => a
    end in
  emit FileInputClear a.

(** [files] is [event.dataTransfer?.files]. *)
Definition onDrop (files : option (list File)) (a : App) : App :=
  let a := emit PreventDefault a in
  let a := emit StopPropagation a in
  let a := emit AudioInit a in
  if negb (PaperState_eqb (paperState a) IDLE) then a
  else
    match files with
    | Some (f :: _) => handleFile f a
    | _ => a
    end.

Definition reset (a : App) : App :=
  let a := paperState_set IDLE a in
  let a := with_fileName EmptyString a in
  let a := with_sparks [] a in
  emit AudioStopMusic a.

(** ** The event loop around the component *)

Definition runTask (k : TimerTask) (a : App) : App :=
  match k with
  | ShakeOff => with_isShaking false a
  | BurnOut =>
      let a := paperState_set ASHES a in
      with_sparks [] a (* Clear sparks *)
  end.

(** Pending timers run by due time; equally due ones in registration order.
    [enqueue t q] puts [t], registered before everything in [q], into the
    ordered queue [q]. *)
Fixpoint enqueue (t : Timer) (q : list Timer) : list Timer :=
  match q with
  | [] => [t]
  | u :: q' => if due t <=? due u then t :: q else u :: enqueue t q'
  end.

Definition firingOrder (ts : list Timer) : list Timer :=
  fold_right enqueue [] ts.

Definition isDue (now : N) (t : Timer) : bool := due t <=? now.

Definition runTimers (ts : list Timer) (a : App) : App :=
  fold_left (fun a t => runTask (task t) a) ts a.

(** [ms] milliseconds pass with no input: every timer that has become due
    runs, the others stay pending. *)
Definition elapse (ms : N) (a : App) : App :=
  let now := clock a + ms in
  let ready := firingOrder (filter (isDue now) (timers a)) in
  let waiting := filter (fun t => negb (isDue now t)) (timers a) in
  runTimers ready (with_clock now (with_timers waiting a)).

(** Everything that can happen to the component. *)
Inductive Event : Type :=
  | Sample (gesture : GestureType) (proximity : float)
  | ClickUpload
  | FileSelected (files : option (list File))
  | Drop (files : option (list File))
  | ResetRequested
  | Elapse (ms : N).

Definition step (e : Event) (a : App) : App :=
  match e with
  | Sample g p => handleGameLoop g p a
  | ClickUpload => triggerUpload a
  | FileSelected fs => onFileSelected fs a
  | Drop fs => onDrop fs a
  | ResetRequested => reset a
  | Elapse ms => elapse ms a
  end.

Definition run (es : list Event) (a : App) : App :=
  fold_left (fun a e => step e a) es a.

(** The component as its field initialisers leave it. *)
Definition initial (rnd : nat -> float) : App :=
  mkApp IDLE EmptyString EmptyString false [] 0 true 0 [] rnd O [].

Definition Reachable (a : App) : Prop :=
  exists rnd es, a = run es (initial rnd).

(** Counting in the effect log. *)
Definition isCrumpleCall (e : Effect) : bool :=
  match e with CallTriggerCrumple => true | _ => false end.

Definition isBurnCall (e : Effect) : bool :=
  match e with CallBurnPaper => true | _ => false end.

Definition isTransition (e : Effect) : bool :=
  match e with SetPaperState _ => true | _ => false end.

Definition crumples (a : App) : nat := length (filter isCrumpleCall (log a)).
Definition transitions (a : App) : nat := length (filter isTransition (log a)).

(** [n] consecutive samples of one gesture type, with the given proximities. *)
Definition samples (g : GestureType) (ps : list float) : list Event :=
  map (Sample g) ps.

(** ** GestureService *)

Record Landmark : Type := mkLandmark { lm_x : float; lm_y : float; lm_z : float }.

Record GestureService : Type := mkGestureService {
  currentGesture : GestureType;   (* signal, initially 'NONE' *)
  handProximity : float           (* signal, initially 0 *)
}.

(** How a call ends: normally, or with the [TypeError] of a property read
    on [undefined]. *)
Inductive Completion (A : Type) : Type :=
  | Normal (v : A)
  | TypeError.
Arguments Normal {A} v.
Arguments TypeError {A}.

Definition bind {A B : Type} (c : Completion A) (k : A -> Completion B)
  : Completion B :=
  match c with
  | Normal v => k v
  | TypeError => TypeError
  end.

Notation "x <- c ;; k" := (bind c (fun x => k))
  (at level 61, c at next level, right associativity).

(** [arr[i]]: [None] is [undefined]; an [undefined] index reads [undefined]. *)
Definition index {A : Type} (arr : list A) (i : option nat) : option A :=
  match i with
  | Some i => nth_error arr i
  | None => None
  end.

(** [Math.pow(v, 2)]. *)
Definition Math_pow2 (v : float) : float := (v * v)%float.

(** [Math.max] and [Math.min] of two numbers: NaN if either is NaN, and
    [-0] below [+0]. *)
Definition Math_max (u v : float) : float :=
  if is_nan u || is_nan v then nan
  else if (u <? v)%float then v
  else if (v <? u)%float then u
  else if get_sign u then v else u.

Definition Math_min (u v : float) : float :=
  if is_nan u || is_nan v then nan
  else if (u <? v)%float then u
  else if (v <? u)%float then v
  else if get_sign u then u else v.

Definition dist (a b : option Landmark) : Completion float :=
  match a, b with
  | Some a, Some b =>
      Normal (sqrt (Math_pow2 (lm_x a - lm_x b)
                    + Math_pow2 (lm_y a - lm_y b)
                    + Math_pow2 (lm_z a - lm_z b)))%float
  | _, _ => TypeError
  end.

(** [arr.forEach((v, i) => ...)] for a callback that updates [s] and may throw. *)
Fixpoint forEach {A St : Type} (f : A -> nat -> St -> Completion St)
         (arr : list A) (i : nat) (s : St) : Completion St :=
  match arr with
  | [] => Normal s
  | v :: arr' => s' <- f v i s ;; forEach f arr' (S i) s'
  end.

Definition Box : Type := (float * float * float * float)%type.

(** The first [forEach] of [processGesture]: grow the bounding box by [pt]. *)
Definition grow (box : Box) (pt : Landmark) : Box :=
  let '(minX, maxX, minY, maxY) := box in
  let minX := if (lm_x pt <? minX)%float then lm_x pt else minX in
  let maxX := if (maxX <? lm_x pt)%float then lm_x pt else maxX in
  let minY := if (lm_y pt <? minY)%float then lm_y pt else minY in
  let maxY := if (maxY <? lm_y pt)%float then lm_y pt else maxY in
  (minX, maxX, minY, maxY).

Definition proximityOf (landmarks : list Landmark) : float :=
  let '(minX, maxX, minY, maxY) :=
    fold_left grow landmarks (1, 0, 1, 0)%float in
  let width := (maxX - minX)%float in
  let height := (maxY - minY)%float in
  let area := (width * height)%float in
  Math_min (Math_max ((area - 0.05) / 0.25)%float 0%float) 1%float.

(** The body of [tips.forEach((tipIdx, i) => ...)]. *)
Definition curlStep (landmarks : list Landmark) (wrist : option Landmark)
           (mcps : list nat) (tipIdx i : nat) (curledCount : N)
  : Completion N :=
  let tip := index landmarks (Some tipIdx) in
  let mcp := index landmarks (nth_error mcps i) in
  dTip <- dist tip wrist ;;
  dMcp <- dist mcp wrist ;;
  let pip := index landmarks (Some (tipIdx - 2)%nat) in
  dPip <- dist pip wrist ;;
  Normal (if (dTip <? dPip)%float then curledCount + 1 else curledCount).

Definition gestureOfCount (curledCount : N) : GestureType :=
  if 3 <=? curledCount then FIST
  else if curledCount =? 0 then OPEN_PALM
  else NONE.

Definition processGesture (landmarks : list Landmark) (g : GestureService)
  : GestureService * Completion unit :=
  (* 1. Calculate Bounding Box Area for Proximity *)
  let proximity := proximityOf landmarks in
  let g := mkGestureService (currentGesture g) proximity in
  (* 2. Detect Fist vs Palm *)
  let wrist := index landmarks (Some 0%nat) in
  let tips := [8; 12; 16; 20]%nat in
  let mcps := [5; 9; 13; 17]%nat in
  match forEach (curlStep landmarks wrist mcps) tips 0%nat 0 with
  | TypeError => (g, TypeError)
  | Normal curledCount =>
      (mkGestureService (gestureOfCount curledCount) (handProximity g), Normal tt)
  end.

(** ** Notions used in the statements

    Tests read off the code, invariants, and the concrete states, runs and
    hands on which the properties below are tried. *)

Definition burnt (s : PaperState) : bool :=
  PaperState_eqb s BURNING || PaperState_eqb s ASHES.

(** The sample makes [handleGameLoop] call [triggerCrumple]. *)
Definition fires (g : GestureType) (a : App) : bool :=
  GestureType_eqb g FIST && canCrumple a && (5 <? gestureHoldCounter a + 1).

(** The sample counts towards the threshold without reaching it. *)
Definition counts (g : GestureType) (a : App) : bool :=
  GestureType_eqb g FIST && canCrumple a && negb (5 <? gestureHoldCounter a + 1).

Definition sameDebounce (a b : App) : Prop :=
  gestureHoldCounter b = gestureHoldCounter a
  /\ canCrumple b = canCrumple a
  /\ crumples b = crumples a.

Definition isSample (e : Event) : bool :=
  match e with Sample _ _ => true | _ => false end.

Definition isRelease (e : Event) : bool :=
  match e with
  | Sample OPEN_PALM _ | Sample NONE _ => true
  | _ => false
  end.

(** Whenever the gate is closed the counter is zero, in every state the
    component can be in. *)
Definition gateInvariant (a : App) : Prop :=
  canCrumple a = false -> gestureHoldCounter a = 0.

(** A fixed source for [Math.random] in the concrete runs below. *)
Definition halves : nat -> float := fun _ => 0.5%float.

(** Three fists in: counter at 3.  After a crumple: gate closed. *)
Definition midHold : App := run (samples FIST [0; 0; 0]%float) (initial halves).
Definition afterCrumple : App :=
  run (samples FIST [0; 0; 0; 0; 0; 0]%float) (initial halves).

Definition burnCalls (a : App) : nat := length (filter isBurnCall (log a)).

(** The test of the burning logic, on the paper state the crumpling logic
    leaves behind. *)
Definition burnTest (s : PaperState) (g : GestureType) (p : float) : bool :=
  PaperState_eqb s CRUMPLED_FINAL
  && (GestureType_eqb g OPEN_PALM && (0.15 <? p)%float).

Definition isBurnOut (t : Timer) : bool :=
  match task t with BurnOut => true | ShakeOff => false end.

(** A pending burn timer that has become due at time [now]. *)
Definition burnDue (now : N) (t : Timer) : bool := isDue now t && isBurnOut t.

(** The paper after a file was dropped and three holds of six fists each,
    separated by a NONE sample: CRUMPLED_FINAL. *)
Definition sixFists : list Event := samples FIST [0; 0; 0; 0; 0; 0]%float.

Definition crumpledThrice : App :=
  run (Drop (Some [mkFile "letter.txt" "text/plain"])
         :: sixFists ++ Sample NONE 0 :: sixFists ++ Sample NONE 0 :: sixFists)
      (initial halves).

(** While the paper is BURNING, the timer that will turn it to ashes is
    pending and due within 2500 ms. *)
Definition burnPending (a : App) : Prop :=
  paperState a = BURNING ->
  exists d, In (mkTimer d BurnOut) (timers a) /\ d <= clock a + 2500.

(** [b] comes from [a] by code that leaves the clock alone, cancels no
    timer, and enters BURNING only together with a fresh burn timer. *)
Definition keepsTimers (a b : App) : Prop :=
  clock b = clock a
  /\ (forall t, In t (timers a) -> In t (timers b))
  /\ (paperState b = BURNING ->
      paperState a = BURNING \/ In (mkTimer (clock a + 2500) BurnOut) (timers b)).

(** A burn started at time 0 and still going on one second later. *)
Definition burningScript : list Event :=
  Drop (Some [mkFile "letter.txt" "text/plain"])
    :: sixFists ++ Sample NONE 0 :: sixFists ++ Sample NONE 0 :: sixFists
    ++ [Sample OPEN_PALM 0.2; Elapse 1000].

Definition midBurn : App := run burningScript (initial halves).

Definition letter : File := mkFile "letter.txt" "text/plain".
Definition memo : File := mkFile "memo.pdf" "application/pdf".

(** The paper burnt to ashes: [midBurn], 1500 ms later. *)
Definition ashes : App := elapse 1500 midBurn.

(** The four fingers the classifier looks at; the thumb is not among them. *)
Inductive Finger : Type := IndexFinger | MiddleFinger | RingFinger | PinkyFinger.

Definition tipOf (f : Finger) : nat :=
  match f with
  | IndexFinger => 8 | MiddleFinger => 12 | RingFinger => 16 | PinkyFinger => 20
  end%nat.

Definition pipOf (f : Finger) : nat :=
  match f with
  | IndexFinger => 6 | MiddleFinger => 10 | RingFinger => 14 | PinkyFinger => 18
  end%nat.

(** The Euclidean distance of two points in space, in binary64 arithmetic. *)
Definition euclid (a b : Landmark) : float :=
  sqrt ((lm_x a - lm_x b) * (lm_x a - lm_x b)
        + (lm_y a - lm_y b) * (lm_y a - lm_y b)
        + (lm_z a - lm_z b) * (lm_z a - lm_z b))%float.

(** A finger is curled when its tip is strictly nearer to the wrist than its
    PIP joint is. *)
Definition curled (landmarks : list Landmark) (f : Finger) : bool :=
  match nth_error landmarks (tipOf f), nth_error landmarks (pipOf f),
        nth_error landmarks 0 with
  | Some tip, Some pip, Some wrist => (euclid tip wrist <? euclid pip wrist)%float
  | _, _, _ => false
  end.

Definition curledFingers (landmarks : list Landmark) : nat :=
  length (filter (curled landmarks)
                 [IndexFinger; MiddleFinger; RingFinger; PinkyFinger]).

(** A schematic hand: wrist, thumb, and four fingers of MCP, PIP, DIP and
    tip, each finger either stretched out or folded back towards the wrist. *)
Definition point (x y : float) : Landmark := mkLandmark x y 0.

Definition fingerPoints (x : float) (fold : bool) : list Landmark :=
  [point x 0.6; point x 0.5;
   point x (if fold then 0.55 else 0.4);
   point x (if fold then 0.7 else 0.3)]%float.

Definition hand (i m r k : bool) : list Landmark :=
  point 0.5 0.9
    :: [point 0.3 0.8; point 0.25 0.7; point 0.2 0.65; point 0.15 0.6]%float
    ++ fingerPoints 0.4 i ++ fingerPoints 0.5 m
    ++ fingerPoints 0.6 r ++ fingerPoints 0.7 k.

Definition idleService : GestureService := mkGestureService NONE 0.

(** Twenty points: a hand that lost its last landmark.  Twenty-two: a hand
    with one point too many. *)
Definition twentyPoints : list Landmark := removelast (hand true true true true).
Definition twentyTwoPoints : list Landmark :=
  hand true true true true ++ [point 0.9 0.9]%float.

(** ** Further notions: the life cycle, the sample stream, the counts *)

From Stdlib Require Import PeanoNat.

(** The stage that follows a stage when the paper is crumpled. *)
Definition crumpledFrom (s : PaperState) : PaperState :=
  match s with
  | ACTIVE => CRUMPLED_1
  | CRUMPLED_1 => CRUMPLED_2
  | CRUMPLED_2 => CRUMPLED_FINAL
  | s => s
  end.

(** The place of a state in the life cycle. *)
Definition stage (s : PaperState) : nat :=
  match s with
  | IDLE => 0 | ACTIVE => 1 | CRUMPLED_1 => 2 | CRUMPLED_2 => 3
  | CRUMPLED_FINAL => 4 | BURNING => 5 | ASHES => 6
  end%nat.

(** A stream of gesture samples, fed to [handleGameLoop] one by one. *)
Definition feed (ss : list (GestureType * float)) (a : App) : App :=
  fold_left (fun a s => handleGameLoop (fst s) (snd s) a) ss a.

Definition isFistSample (e : Event) : bool :=
  match e with Sample FIST _ => true | _ => false end.

(** The number of FIST samples among the events. *)
Definition fists (es : list Event) : nat := length (filter isFistSample es).

Definition isShakeOff (t : Timer) : bool :=
  match task t with ShakeOff => true | BurnOut => false end.

Definition isCrumpleSound (e : Effect) : bool :=
  match e with AudioPlayCrumple => true | _ => false end.

Definition isBurnSound (e : Effect) : bool :=
  match e with AudioPlayBurn => true | _ => false end.

Definition isCrumpleWrite (e : Effect) : bool :=
  match e with
  | SetPaperState CRUMPLED_1 | SetPaperState CRUMPLED_2
  | SetPaperState CRUMPLED_FINAL => true
  | _ => false
  end.

Definition isBurnWrite (e : Effect) : bool :=
  match e with SetPaperState BURNING => true | _ => false end.

Definition count (f : Effect -> bool) (a : App) : nat := length (filter f (log a)).

(** The paper state one call of [handleGameLoop] leaves behind. *)
Definition nextPaper (g : GestureType) (p : float) (a : App) : PaperState :=
  if fires g a then crumpledFrom (paperState a)
  else if burnTest (paperState a) g p then BURNING
  else paperState a.

(** Every run of consecutive FIST samples in the stream stays within five
    frames, [c] frames of the current run being already behind us. *)
Fixpoint shortHolds (c : nat) (ss : list (GestureType * float)) : bool :=
  match ss with
  | [] => true
  | (FIST, _) :: ss' => Nat.leb (S c) 5 && shortHolds (S c) ss'
  | _ :: ss' => shortHolds 0 ss'
  end.

(** States that no gesture can leave. *)
Definition deaf (s : PaperState) : bool :=
  match s with IDLE | BURNING | ASHES => true | _ => false end.

(** A hesitant hand: holds of three, five and two frames. *)
Definition hesitant : list (GestureType * float) :=
  [(FIST, 0); (FIST, 0); (FIST, 0); (NONE, 0); (FIST, 0); (FIST, 0); (FIST, 0);
   (FIST, 0); (FIST, 0); (OPEN_PALM, 0.5); (FIST, 0); (FIST, 0)]%float.

(** While the paper shakes, the timer that will end the shake is pending
    and due within 400 ms. *)
Definition shakePending (a : App) : Prop :=
  isShaking a = true ->
  exists d, In (mkTimer d ShakeOff) (timers a) /\ d <= clock a + 400.

Definition shakeDue (now : N) (t : Timer) : bool := isDue now t && isShakeOff t.

(** What holds of the visible state in every state the component reaches. *)
Definition tidy (a : App) : Prop :=
  (paperState a = BURNING -> length (sparks a) = 40%nat)
  /\ (sparks a = [] \/ length (sparks a) = 40%nat)
  /\ (paperState a = IDLE -> fileName a = EmptyString /\ sparks a = [])
  /\ count isCrumpleSound a = count isCrumpleWrite a
  /\ count isBurnSound a = count isBurnWrite a.

(** The paper right after its first crumple, shaking. *)
Definition shaken : App := run (Drop (Some [letter]) :: sixFists) (initial halves).

(** ** AudioService

    The service keeps an [AudioContext], the flag [isMusicPlaying] and the
    handle of the timer for the next note.  What it asks of Web Audio (nodes
    created, connected, started) is recorded as one [Sound] per sound; what
    Web Audio and the browser tell it comes in as arguments: whether
    [ctx.state] reads ['suspended'], the value of [ctx.currentTime], and the
    results of [Math.random()].  Its timers fire when the environment says
    so. *)
Module Audio.

Inductive Sound : Type :=
  | CreateContext                              (* new AudioContext() *)
  | Resume                                     (* ctx.resume() *)
  | Note (freq : option float) (time : float)  (* one oscillator of the tune *)
  | CrumpleSound
  | BurnSound.

Record Service : Type := mkService {
  ctx : bool;                       (* false: null *)
  isMusicPlaying : bool;
  nextNoteTimer : option nat;       (* None: undefined *)
  (* the environment *)
  pending : list (nat * float);     (* timers set and not yet fired or cleared *)
  fresh : nat;                      (* the handle the next setTimeout returns *)
  out : list Sound                  (* most recent first *)
}.

Definition initial : Service := mkService false false None [] 1 [].

Definition play (x : Sound) (s : Service) : Service :=
  mkService (ctx s) (isMusicPlaying s) (nextNoteTimer s) (pending s) (fresh s)
            (x :: out s).

Definition with_isMusicPlaying (v : bool) (s : Service) : Service :=
  mkService (ctx s) v (nextNoteTimer s) (pending s) (fresh s) (out s).

(** [setTimeout(cb, delay)] for the one callback there is,
    [() => this.playNextNote()], with the handle stored in [nextNoteTimer]. *)
Definition setNoteTimer (delay : float) (s : Service) : Service :=
  mkService (ctx s) (isMusicPlaying s) (Some (fresh s))
            (pending s ++ [(fresh s, delay)]) (S (fresh s)) (out s).

Definition clearTimeout (h : option nat) (s : Service) : Service :=
  match h with
  | None => s
  | Some h =>
      mkService (ctx s) (isMusicPlaying s) (nextNoteTimer s)
                (filter (fun t => negb (Nat.eqb (fst t) h)) (pending s))
                (fresh s) (out s)
  end.

Definition init (suspended : bool) (s : Service) : Service :=
  let s :=
    if negb (ctx s)
    then play CreateContext
              (mkService true (isMusicPlaying s) (nextNoteTimer s) (pending s)
                         (fresh s) (out s))
    else s in
  if suspended then play Resume s else s.

(** [scale[Math.floor(v)]] for the six-note scale. *)
Definition scaleAt (v : float) : option float :=
  if (0 <=? v)%float then
    if (v <? 1)%float then Some 261.63%float
    else if (v <? 2)%float then Some 293.66%float
    else if (v <? 3)%float then Some 329.63%float
    else if (v <? 4)%float then Some 392.00%float
    else if (v <? 5)%float then Some 440.00%float
    else if (v <? 6)%float then Some 523.25%float
    else None
  else None.

Definition playNextNote (time r1 r2 : float) (s : Service) : Service :=
  if negb (isMusicPlaying s) || negb (ctx s) then s
  else
    let freq := scaleAt (r1 * 6)%float in
    let s := play (Note freq time) s in
    let nextDelay := (400 + r2 * 600)%float in
    setNoteTimer nextDelay s.

Definition startMusic (suspended : bool) (time r1 r2 : float) (s : Service)
  : Service :=
  if isMusicPlaying s then s
  else
    let s := init suspended s in
    let s := with_isMusicPlaying true s in
    playNextNote time r1 r2 s.

Definition stopMusic (s : Service) : Service :=
  let s := with_isMusicPlaying false s in
  clearTimeout (nextNoteTimer s) s.

Definition playCrumple (suspended : bool) (s : Service) : Service :=
  let s := init suspended s in
  if negb (ctx s) then s else play CrumpleSound s.

Definition playBurn (suspended : bool) (s : Service) : Service :=
  let s := init suspended s in
  if negb (ctx s) then s else play BurnSound s.

(** The timer with handle [h] fires, if it is pending: it leaves the queue
    and its callback runs. *)
Definition fire (h : nat) (time r1 r2 : float) (s : Service) : Service :=
  if existsb (fun t => Nat.eqb (fst t) h) (pending s) then
    playNextNote time r1 r2
      (mkService (ctx s) (isMusicPlaying s) (nextNoteTimer s)
                 (filter (fun t => negb (Nat.eqb (fst t) h)) (pending s))
                 (fresh s) (out s))
  else s.

Inductive Event : Type :=
  | Init (suspended : bool)
  | StartMusic (suspended : bool) (time r1 r2 : float)
  | StopMusic
  | PlayCrumple (suspended : bool)
  | PlayBurn (suspended : bool)
  | Fire (h : nat) (time r1 r2 : float).

Definition step (e : Event) (s : Service) : Service :=
  match e with
  | Init b => init b s
  | StartMusic b t r1 r2 => startMusic b t r1 r2 s
  | StopMusic => stopMusic s
  | PlayCrumple b => playCrumple b s
  | PlayBurn b => playBurn b s
  | Fire h t r1 r2 => fire h t r1 r2 s
  end.

Definition run (es : list Event) (s : Service) : Service :=
  fold_left (fun s e => step e s) es s.

Definition Reachable (s : Service) : Prop := exists es, s = run es initial.

(** The calls the component makes, without what the environment adds. *)
Inductive Call : Type := CallInit | CallStart | CallStop | CallCrumple | CallBurn.

Definition callOf (e : Event) : option Call :=
  match e with
  | Init _ => Some CallInit
  | StartMusic _ _ _ _ => Some CallStart
  | StopMusic => Some CallStop
  | PlayCrumple _ => Some CallCrumple
  | PlayBurn _ => Some CallBurn
  | Fire _ _ _ _ => None
  end.

Fixpoint calls (es : list Event) : list Call :=
  match es with
  | [] => []
  | e :: es' =>
      match callOf e with
      | Some c => c :: calls es'
      | None => calls es'
      end
  end.

(** Whether the music is wanted after the calls [cs], the most recent first. *)
Fixpoint wanted (cs : list Call) : bool :=
  match cs with
  | [] => false
  | CallStart :: _ => true
  | CallStop :: _ => false
  | _ :: cs' => wanted cs'
  end.

Definition isNote (x : Sound) : bool :=
  match x with Note _ _ => true | _ => false end.

Definition isCreate (x : Sound) : bool :=
  match x with CreateContext => true | _ => false end.

Definition notes (s : Service) : nat := length (filter isNote (out s)).
Definition contexts (s : Service) : nat := length (filter isCreate (out s)).

Definition isStart (e : Event) : bool :=
  match e with StartMusic _ _ _ _ => true | _ => false end.

(** The music is on exactly when one note timer is pending, the one whose
    handle the service holds. *)
Definition wellTimed (s : Service) : Prop :=
  (isMusicPlaying s = true ->
     ctx s = true
     /\ exists h d, nextNoteTimer s = Some h /\ pending s = [(h, d)]
                    /\ (h < fresh s)%nat)
  /\ (isMusicPlaying s = false -> pending s = [])
  /\ contexts s = (if ctx s then 1 else 0)%nat.

End Audio.

(** The call into [AudioService] that an entry of the component's log
    stands for. *)
Definition audioCall (e : Effect) : option Audio.Call :=
  match e with
  | AudioInit => Some Audio.CallInit
  | AudioStartMusic => Some Audio.CallStart
  | AudioStopMusic => Some Audio.CallStop
  | AudioPlayCrumple => Some Audio.CallCrumple
  | AudioPlayBurn => Some Audio.CallBurn
  | _ => None
  end.

(** The component's calls into [AudioService], most recent first. *)
Fixpoint audioCalls (l : list Effect) : list Audio.Call :=
  match l with
  | [] => []
  | e :: l' =>
      match audioCall e with
      | Some c => c :: audioCalls l'
      | None => audioCalls l'
      end
  end.

(** A paper is on the table: loaded and not yet burnt to ashes. *)
Definition onTable (s : PaperState) : bool :=
  match s with
  | ACTIVE | CRUMPLED_1 | CRUMPLED_2 | CRUMPLED_FINAL | BURNING => true
  | IDLE | ASHES => false
  end.

(** The music follows the paper: wanted while a paper is on the table, not
    wanted while the component is IDLE. *)
Definition musicFollows (a : App) : Prop :=
  (onTable (paperState a) = true -> Audio.wanted (audioCalls (log a)) = true)
  /\ (paperState a = IDLE -> Audio.wanted (audioCalls (log a)) = false).

(** Two rounds of music with a crumple in between, the first note timer of
    the second round still pending. *)
Definition secondRound : Audio.Service :=
  Audio.run [Audio.StartMusic true 0 0.2 0.5; Audio.Fire 1 0.7 0.9 0.1;
             Audio.PlayCrumple false; Audio.StopMusic;
             Audio.StartMusic false 3 0.4 0.4]%float
            Audio.initial.

(** The events of [midBurn] as the service sees them: the calls in the
    component's log, with the first note timer firing along the way. *)
Definition midBurnAudio : list Audio.Event :=
  [Audio.Init true; Audio.StartMusic false 0 0.1 0.1; Audio.PlayCrumple false;
   Audio.Fire 1 0.5 0.3 0.3; Audio.PlayCrumple false; Audio.PlayCrumple false;
   Audio.PlayBurn false]%float.

(** ** Further notions: the classifier *)

From Stdlib Require Floats ZArith.

(** [Math.min(Math.max(v, 0), 1)], as [processGesture] clamps the proximity. *)
Definition clamp01 (v : float) : float := Math_min (Math_max v 0) 1.

(** The landmarks that decide the gesture: the wrist and, for the four
    fingers, the PIP joint and the tip. *)
Definition decisive : list nat := [0; 6; 8; 10; 12; 14; 16; 18; 20]%nat.

(** A number that is not NaN and lies between 0 and 1. *)
Definition inUnit (v : float) : bool := (0 <=? v)%float && (v <=? 1)%float.

(** A fist whose thumb sticks out and whose knuckles sit elsewhere. *)
Definition otherFist : list Landmark :=
  point 0.5 0.9
    :: [point 0.1 0.9; point 0.05 0.8; point 0.0 0.7; point 0.0 0.6]%float
    ++ [point 0.45 0.62; point 0.4 0.5; point 0.4 0.3; point 0.4 0.7]%float
    ++ [point 0.5 0.66; point 0.5 0.5; point 0.5 0.2; point 0.5 0.7]%float
    ++ [point 0.6 0.61; point 0.6 0.5; point 0.6 0.1; point 0.6 0.7]%float
    ++ [point 0.75 0.63; point 0.7 0.5; point 0.7 0.45; point 0.7 0.7]%float
    ++ [point 0.9 0.1]%float.

(** ** GestureService: the prediction loop

    [predictWebcam] as one step.  The video's current time and what the hand
    landmarker detects in the frame come in as arguments; what is drawn on
    the canvas and the animation frames requested are recorded. *)
Inductive CanvasOp : Type :=
  | Save | ClearRect | DrawConnectors | DrawLandmarks | Restore.

Record Tracker : Type := mkTracker {
  service : GestureService;
  lastVideoTime : float;        (* initially -1 *)
  isSetUp : bool;               (* handLandmarker, video, canvas, canvasCtx all set *)
  framesRequested : nat;        (* calls of requestAnimationFrame so far *)
  canvasOps : list CanvasOp     (* most recent first *)
}.

Definition draw (op : CanvasOp) (t : Tracker) : Tracker :=
  mkTracker (service t) (lastVideoTime t) (isSetUp t) (framesRequested t)
            (op :: canvasOps t).

Definition with_service (g : GestureService) (t : Tracker) : Tracker :=
  mkTracker g (lastVideoTime t) (isSetUp t) (framesRequested t) (canvasOps t).

Definition requestAnimationFrame (t : Tracker) : Tracker :=
  mkTracker (service t) (lastVideoTime t) (isSetUp t) (S (framesRequested t))
            (canvasOps t).

(** [hands] is [detections.landmarks]: [None] for a missing field, else one
    list of landmarks for each hand detected. *)
Definition predictWebcam (currentTime : float)
           (hands : option (list (list Landmark))) (t : Tracker)
  : Tracker * Completion unit :=
  if negb (isSetUp t) then (t, Normal tt)
  else
    if negb (lastVideoTime t =? currentTime)%float then
      let t := mkTracker (service t) currentTime (isSetUp t) (framesRequested t)
                         (canvasOps t) in
      let t := draw Save t in
      let t := draw ClearRect t in
      match hands with
      | Some (landmarks :: _) =>
          match processGesture landmarks (service t) with
          | (g, TypeError) => (with_service g t, TypeError)
          | (g, Normal _) =>
              let t := with_service g t in
              let t := draw DrawConnectors t in
              let t := draw DrawLandmarks t in
              let t := draw Restore t in
              (requestAnimationFrame t, Normal tt)
          end
      | _ =>
          let t := with_service (mkGestureService NONE 0) t in
          let t := draw Restore t in
          (requestAnimationFrame t, Normal tt)
      end
    else (requestAnimationFrame t, Normal tt).

(** How often the canvas state was saved, and how often restored. *)
Definition saves (t : Tracker) : nat :=
  length (filter (fun op => match op with Save => true | _ => false end) (canvasOps t)).

Definition restores (t : Tracker) : nat :=
  length (filter (fun op => match op with Restore => true | _ => false end)
                 (canvasOps t)).

(** A video time that is not NaN. *)
Definition isTime (v : float) : bool := (v =? v)%float.

(** The service set up and waiting for its first frame. *)
Definition setUp : Tracker := mkTracker idleService (-1)%float true O [].

(** ** AppComponent: the message under the paper *)

Definition currentMessage (s : PaperState) : string :=
  match s with
  | IDLE => "Click or Drag a file here"
  | ACTIVE => "Make a FIST to crumple (0/3)"
  | CRUMPLED_1 => "Release & Fist again! (1/3)"
  | CRUMPLED_2 => "One more time! (2/3)"
  | CRUMPLED_FINAL => "Bring OPEN HAND close to BURN IT!"
  | BURNING => "Burning..."
  | ASHES => "Gone. Reload or click to reset."
  end%string.

(** ** Further notions: what a stage costs *)

(** The crumples a paper in state [s] has behind it at least. *)
Definition crumplesBehind (s : PaperState) : nat :=
  match s with
  | CRUMPLED_1 => 1
  | CRUMPLED_2 => 2
  | CRUMPLED_FINAL | BURNING => 3
  | _ => 0
  end%nat.

Definition paidFor (a : App) : Prop :=
  (crumplesBehind (paperState a) <= count isCrumpleWrite a)%nat
  /\ (count isCrumpleWrite a <= crumples a)%nat.

(** ** Further notions: the file on show *)

(** [f] is the first file of a drop or of a selection among the events. *)
Definition loadsFirst (f : File) (es : list Event) : Prop :=
  exists fs,
    In (Drop (Some (f :: fs))) es \/ In (FileSelected (Some (f :: fs))) es.

(** The component holds no file name, or the name and the type of a file
    that came first in a drop or a selection among the events. *)
Definition showsFirstFile (es : list Event) (a : App) : Prop :=
  fileName a = EmptyString
  \/ exists f, loadsFirst f es
               /\ fileName a = file_name f /\ fileType a = file_type f.

(** * Properties *)

(** ** Sparks *)

Lemma newSpark_state (a : App) :
  snd (newSpark a) = with_drawn (7 + drawn a)%nat a.
Proof. reflexivity. Qed.

Lemma sparksLoop_state (n : nat) : forall (acc : list Spark) (a : App),
  snd (sparksLoop n acc a) = with_drawn (7 * n + drawn a)%nat a.
Proof.
  induction n as [|n IH]; intros acc a.
  - destruct a; reflexivity.
  - change (sparksLoop (S n) acc a)
      with (sparksLoop n (acc ++ [fst (newSpark a)]) (snd (newSpark a))).
    rewrite IH, newSpark_state. unfold with_drawn; cbn [drawn paperState fileName
      fileType isShaking sparks gestureHoldCounter canCrumple clock timers
      entropy log].
    f_equal. lia.
Qed.

Lemma sparksLoop_length (n : nat) : forall (acc : list Spark) (a : App),
  length (fst (sparksLoop n acc a)) = (length acc + n)%nat.
Proof.
  induction n as [|n IH]; intros acc a.
  - cbn. lia.
  - change (sparksLoop (S n) acc a)
      with (sparksLoop n (acc ++ [fst (newSpark a)]) (snd (newSpark a))).
    rewrite IH, length_app. cbn. lia.
Qed.

Lemma generateSparks_eq (a : App) :
  generateSparks a
  = with_sparks (fst (sparksLoop 40 [] a)) (with_drawn (280 + drawn a)%nat a).
Proof.
  unfold generateSparks.
  pose proof (sparksLoop_state 40 [] a) as H.
  destruct (sparksLoop 40 [] a) as [l a']. cbn [fst snd] in *. subst a'.
  reflexivity.
Qed.

Lemma generateSparks_count (a : App) : length (sparks (generateSparks a)) = 40%nat.
Proof.
  rewrite generateSparks_eq. cbn [sparks with_sparks].
  now rewrite sparksLoop_length.
Qed.

Arguments sparksLoop : simpl never.

(** ** [burnPaper] and [triggerCrumple], field by field *)

Lemma burnPaper_eq (a : App) :
  burnPaper a =
  if burnt (paperState a) then emit CallBurnPaper a
  else
    setTimeout BurnOut 2500
      (with_sparks (fst (sparksLoop 40 []
                      (emit AudioPlayBurn (paperState_set BURNING (emit CallBurnPaper a)))))
         (with_drawn (280 + drawn a)%nat
            (emit AudioPlayBurn (paperState_set BURNING (emit CallBurnPaper a))))).
Proof.
  unfold burnPaper, burnt. cbn [paperState emit].
  destruct (PaperState_eqb (paperState a) BURNING || PaperState_eqb (paperState a) ASHES);
    [reflexivity|].
  rewrite generateSparks_eq. reflexivity.
Qed.

Lemma burnPaper_debounce (a : App) :
  gestureHoldCounter (burnPaper a) = gestureHoldCounter a
  /\ canCrumple (burnPaper a) = canCrumple a
  /\ crumples (burnPaper a) = crumples a.
Proof.
  rewrite burnPaper_eq. destruct (burnt (paperState a)); repeat split.
Qed.

Lemma triggerCrumple_debounce (a : App) :
  gestureHoldCounter (triggerCrumple a) = gestureHoldCounter a
  /\ canCrumple (triggerCrumple a) = canCrumple a
  /\ crumples (triggerCrumple a) = S (crumples a).
Proof.
  unfold triggerCrumple. cbn [paperState emit].
  destruct (paperState a); repeat split.
Qed.

(** ** The debounce part of [handleGameLoop] *)

Lemma crumples_with_canCrumple (v : bool) (a : App) :
  crumples (with_canCrumple v a) = crumples a.
Proof. reflexivity. Qed.

Lemma crumples_with_gestureHoldCounter (v : N) (a : App) :
  crumples (with_gestureHoldCounter v a) = crumples a.
Proof. reflexivity. Qed.

Ltac burn_fields :=
  repeat match goal with
  | |- context [burnPaper ?x] =>
      let H1 := fresh in let H2 := fresh in let H3 := fresh in
      destruct (burnPaper_debounce x) as (H1 & H2 & H3);
      rewrite ?H1, ?H2, ?H3; clear H1 H2 H3
  end.

Ltac crumple_fields :=
  repeat match goal with
  | |- context [triggerCrumple ?x] =>
      let H1 := fresh in let H2 := fresh in let H3 := fresh in
      destruct (triggerCrumple_debounce x) as (H1 & H2 & H3);
      rewrite ?H1, ?H2, ?H3; clear H1 H2 H3
  end.

Ltac split_tests :=
  repeat match goal with
  | |- context [if ?b then _ else _] => destruct b eqn:?
  end.

Lemma handleGameLoop_debounce (g : GestureType) (p : float) (a : App) :
  gestureHoldCounter (handleGameLoop g p a)
    = (if counts g a then gestureHoldCounter a + 1 else 0)
  /\ canCrumple (handleGameLoop g p a)
    = (match g with FIST => canCrumple a && negb (fires g a) | _ => true end)
  /\ crumples (handleGameLoop g p a)
    = (if fires g a then S (crumples a) else crumples a).
Proof.
  unfold handleGameLoop, fires, counts.
  destruct g; cbn [GestureType_eqb orb andb negb];
    destruct (canCrumple a) eqn:Hc; cbn [andb negb];
    try destruct (5 <? gestureHoldCounter a + 1) eqn:Ht; cbn [andb negb];
    cbn [canCrumple gestureHoldCounter with_canCrumple with_gestureHoldCounter];
    rewrite ?Ht, ?Hc; cbn [andb negb];
    split_tests; burn_fields;
    rewrite ?crumples_with_canCrumple, ?crumples_with_gestureHoldCounter;
    crumple_fields;
    rewrite ?crumples_with_canCrumple, ?crumples_with_gestureHoldCounter;
    cbn [canCrumple gestureHoldCounter with_canCrumple with_gestureHoldCounter];
    auto.
Qed.

(** ** Everything but a sample leaves the debouncer alone *)

Lemma sameDebounce_refl (a : App) : sameDebounce a a.
Proof. repeat split. Qed.

Lemma sameDebounce_trans (a b c : App) :
  sameDebounce a b -> sameDebounce b c -> sameDebounce a c.
Proof.
  intros (H1 & H2 & H3) (K1 & K2 & K3).
  repeat split; congruence.
Qed.

Lemma runTask_debounce (k : TimerTask) (a : App) : sameDebounce a (runTask k a).
Proof. destruct k; repeat split. Qed.

Lemma runTimers_debounce (ts : list Timer) : forall a : App,
  sameDebounce a (runTimers ts a).
Proof.
  induction ts as [|t ts IH]; intros a.
  - apply sameDebounce_refl.
  - cbn. eapply sameDebounce_trans; [apply (runTask_debounce (task t))|apply IH].
Qed.

Lemma elapse_debounce (ms : N) (a : App) : sameDebounce a (elapse ms a).
Proof.
  unfold elapse.
  eapply sameDebounce_trans; [|apply runTimers_debounce].
  repeat split.
Qed.

Lemma handleFile_debounce (f : File) (a : App) : sameDebounce a (handleFile f a).
Proof. repeat split. Qed.

Lemma step_debounce (e : Event) (a : App) :
  isSample e = false -> sameDebounce a (step e a).
Proof.
  destruct e as [g p| |fs|fs| |ms]; cbn [isSample step]; intros H;
    try discriminate.
  - unfold triggerUpload. destruct (PaperState_eqb _ _); repeat split.
  - unfold onFileSelected. destruct fs as [[|f fs]|]; repeat split.
  - unfold onDrop. cbn [paperState emit].
    destruct (negb _); [repeat split|].
    destruct fs as [[|f fs]|]; repeat split.
  - repeat split.
  - apply elapse_debounce.
Qed.

(** ** Runs of fists *)

Lemma run_app (es1 es2 : list Event) (a : App) :
  run (es1 ++ es2) a = run es2 (run es1 a).
Proof. unfold run. apply fold_left_app. Qed.

Lemma fists_below_threshold (ps : list float) : forall a : App,
  canCrumple a = true ->
  gestureHoldCounter a + N.of_nat (length ps) <= 5 ->
  gestureHoldCounter (run (samples FIST ps) a)
    = gestureHoldCounter a + N.of_nat (length ps)
  /\ canCrumple (run (samples FIST ps) a) = true
  /\ crumples (run (samples FIST ps) a) = crumples a.
Proof.
  induction ps as [|p ps IH]; intros a Hopen Hle.
  - cbn. repeat split; auto. lia.
  - cbn [samples map run fold_left step length] in *.
    destruct (handleGameLoop_debounce FIST p a) as (Hc & Hg & Hn).
    assert (Hlt : (5 <? gestureHoldCounter a + 1) = false)
      by (apply N.ltb_ge; lia).
    unfold counts, fires in *. rewrite Hopen, Hlt in *.
    cbn [GestureType_eqb andb negb] in *.
    destruct (IH (handleGameLoop FIST p a)) as (Ic & Ig & In'); auto.
    + rewrite Hc. lia.
    + fold (samples FIST ps). fold (run (samples FIST ps) (handleGameLoop FIST p a)).
      rewrite Ic, Ig, In', Hc, Hn. repeat split. lia.
Qed.

(** ** The gate *)

Lemma gate_stays_closed (es : list Event) : forall a : App,
  canCrumple a = false ->
  existsb isRelease es = false ->
  canCrumple (run es a) = false /\ crumples (run es a) = crumples a.
Proof.
  induction es as [|e es IH]; intros a Hclosed Hnone.
  - auto.
  - cbn [existsb] in Hnone. apply orb_false_iff in Hnone as [He Hes].
    cbn [run fold_left]. fold (run es (step e a)).
    assert (Hstep : canCrumple (step e a) = false
                    /\ crumples (step e a) = crumples a).
    { destruct e as [g p| |fs|fs| |ms];
        try (match goal with
             | |- context [step ?e a] =>
                 destruct (step_debounce e a eq_refl) as (_ & H2 & H3)
             end; split; congruence).
      cbn [step].
      destruct (handleGameLoop_debounce g p a) as (_ & Hg & Hn).
      unfold fires in *. rewrite Hclosed in *.
      destruct g; cbn in He; try discriminate.
      cbn [GestureType_eqb andb] in *. auto. }
    destruct Hstep as [H1 H2].
    destruct (IH (step e a) H1 Hes) as [I1 I2].
    split; congruence.
Qed.

Lemma step_gateInvariant (e : Event) (a : App) :
  gateInvariant a -> gateInvariant (step e a).
Proof.
  unfold gateInvariant. intros Ha Hclosed.
  destruct (isSample e) eqn:He.
  - destruct e as [g p| | | | |]; try discriminate. cbn [step] in *.
    destruct (handleGameLoop_debounce g p a) as (Hc & Hg & _).
    rewrite Hc. unfold counts, fires in *.
    destruct g; cbn [GestureType_eqb andb] in *; try reflexivity.
    rewrite Hclosed in Hg.
    destruct (canCrumple a); cbn [andb negb] in *; [|reflexivity].
    destruct (5 <? gestureHoldCounter a + 1); [reflexivity|discriminate].
  - destruct (step_debounce e a He) as (H1 & H2 & _).
    rewrite H1. apply Ha. congruence.
Qed.

Lemma run_gateInvariant (es : list Event) : forall a : App,
  gateInvariant a -> gateInvariant (run es a).
Proof.
  induction es as [|e es IH]; intros a Ha; [exact Ha|].
  cbn [run fold_left]. apply IH. now apply step_gateInvariant.
Qed.

Lemma reachable_gateInvariant (a : App) : Reachable a -> gateInvariant a.
Proof.
  intros (rnd & es & ->). apply run_gateInvariant.
  intros H. reflexivity.
Qed.

(** ** Debouncer claims *)

(** C2. Starting from [gestureHoldCounter = 0] and an open gate, five
    consecutive FIST samples (and every shorter run of them) call
    [triggerCrumple] not once; the sixth FIST sample calls it exactly once
    and leaves [gestureHoldCounter = 0] and the gate closed. *)
Theorem six_fists_one_crumple (a : App) (ps : list float) (p6 : float) :
  gestureHoldCounter a = 0 ->
  canCrumple a = true ->
  length ps = 5%nat ->
  let a5 := run (samples FIST ps) a in
  let a6 := handleGameLoop FIST p6 a5 in
  (forall k : nat, crumples (run (samples FIST (firstn k ps)) a) = crumples a)
  /\ crumples a6 = S (crumples a)
  /\ gestureHoldCounter a6 = 0
  /\ canCrumple a6 = false.
Proof.
  intros H0 Hopen Hlen a5 a6.
  split.
  - intros k.
    apply (fists_below_threshold (firstn k ps) a Hopen).
    rewrite length_firstn. lia.
  - destruct (fists_below_threshold ps a Hopen) as (Hc & Hg & Hn); [lia|].
    fold a5 in Hc, Hg, Hn.
    destruct (handleGameLoop_debounce FIST p6 a5) as (Kc & Kg & Kn).
    fold a6 in Kc, Kg, Kn.
    assert (Hlt : (5 <? gestureHoldCounter a5 + 1) = true)
      by (apply N.ltb_lt; lia).
    unfold counts, fires in *. rewrite Hg, Hlt in *.
    cbn [GestureType_eqb andb negb] in *.
    repeat split; congruence.
Qed.

Lemma six_fists_one_crumple_witness :
  gestureHoldCounter (initial halves) = 0
  /\ canCrumple (initial halves) = true
  /\ crumples (run (samples FIST [0; 0.1; 0.2; 0.3; 0.3]%float) (initial halves)) = 0%nat
  /\ crumples (handleGameLoop FIST 0.3
                 (run (samples FIST [0; 0.1; 0.2; 0.3; 0.3]%float) (initial halves)))
     = 1%nat
  /\ gestureHoldCounter
       (handleGameLoop FIST 0.3
          (run (samples FIST [0; 0.1; 0.2; 0.3; 0.3]%float) (initial halves))) = 0
  /\ canCrumple
       (handleGameLoop FIST 0.3
          (run (samples FIST [0; 0.1; 0.2; 0.3; 0.3]%float) (initial halves))) = false.
Proof.
  split; [reflexivity|]. split; [reflexivity|].
  pose proof (six_fists_one_crumple (initial halves)
                [0; 0.1; 0.2; 0.3; 0.3]%float 0.3%float
                eq_refl eq_refl eq_refl) as (Hnone & Hsix).
  split; [exact (Hnone 5%nat)|exact Hsix].
Defined.

(** C3. Once a sample has made [handleGameLoop] call [triggerCrumple], an
    unbroken run of FIST samples of any length calls it no more; and whatever
    happens next, a later sample can call it again only if an OPEN_PALM or NONE
    sample came in between. *)
Theorem one_crumple_per_hold (a : App) (g : GestureType) (p : float) :
  crumples (handleGameLoop g p a) = S (crumples a) ->
  let a1 := handleGameLoop g p a in
  (forall ps : list float, crumples (run (samples FIST ps) a1) = crumples a1)
  /\ (forall (es : list Event) (g2 : GestureType) (p2 : float),
        crumples (handleGameLoop g2 p2 (run es a1)) <> crumples (run es a1) ->
        exists g' p', In (Sample g' p') es /\ (g' = OPEN_PALM \/ g' = NONE)).
Proof.
  intros Hfire a1.
  assert (Hclosed : canCrumple a1 = false).
  { destruct (handleGameLoop_debounce g p a) as (_ & Hg & Hn).
    fold a1 in Hg, Hn, Hfire.
    destruct (fires g a) eqn:Hf; [|lia].
    destruct g; try (unfold fires in Hf; discriminate Hf).
    rewrite Hg. apply andb_false_r. }
  split.
  - intros ps. apply gate_stays_closed; [exact Hclosed|].
    induction ps as [|q ps IH]; [reflexivity|exact IH].
  - intros es g2 p2 Hagain.
    destruct (existsb isRelease es) eqn:Hex.
    + apply existsb_exists in Hex as (e & Hin & He).
      destruct e as [g' p'| | | | |]; try discriminate.
      exists g', p'. split; [exact Hin|].
      destruct g'; try discriminate; auto.
    + exfalso. apply Hagain.
      destruct (gate_stays_closed es a1 Hclosed Hex) as [Hstill _].
      destruct (handleGameLoop_debounce g2 p2 (run es a1)) as (_ & _ & Hn).
      rewrite Hn. unfold fires. rewrite Hstill.
      now rewrite andb_false_r.
Qed.

Lemma one_crumple_per_hold_witness :
  crumples (handleGameLoop FIST 0 (run (samples FIST [0; 0; 0; 0; 0]%float) (initial halves)))
  = S (crumples (run (samples FIST [0; 0; 0; 0; 0]%float) (initial halves)))
  /\ crumples (run (samples FIST [0; 0; 0; 0; 0; 0; 0]%float) afterCrumple)
     = crumples afterCrumple.
Proof.
  split; [reflexivity|].
  exact (proj1 (one_crumple_per_hold
                  (run (samples FIST [0; 0; 0; 0; 0]%float) (initial halves))
                  FIST 0%float eq_refl)
               [0; 0; 0; 0; 0; 0; 0]%float).
Defined.

(** C7 (as the code has it). The field initialisers give the debouncer
    [gestureHoldCounter = 0] and [canCrumple = true]; [reset] writes neither
    field, so after a reset both hold what they held before. *)
Theorem reset_keeps_debounce (a : App) (rnd : nat -> float) :
  gestureHoldCounter (initial rnd) = 0
  /\ canCrumple (initial rnd) = true
  /\ gestureHoldCounter (reset a) = gestureHoldCounter a
  /\ canCrumple (reset a) = canCrumple a.
Proof. repeat split. Qed.

(** C7, refuted as stated: a reset in the middle of a hold keeps the counter
    at 3, and a reset after a crumple keeps the gate closed. *)
Lemma reset_debounce_counterexample :
  gestureHoldCounter (reset midHold) = 3
  /\ canCrumple (reset afterCrumple) = false.
Proof. split; reflexivity. Qed.

(** C8. In every state the component can reach in which the gate is
    closed, a FIST sample leaves [gestureHoldCounter] unchanged.  (The code
    writes 0 to the counter on this path; whenever the gate is closed the
    counter is 0 already.) *)
Theorem closed_gate_fist_counter (a : App) (p : float) :
  Reachable a ->
  canCrumple a = false ->
  gestureHoldCounter (handleGameLoop FIST p a) = gestureHoldCounter a.
Proof.
  intros Hr Hclosed.
  destruct (handleGameLoop_debounce FIST p a) as (Hc & _ & _).
  unfold counts in Hc. rewrite Hclosed in Hc. cbn [GestureType_eqb andb] in Hc.
  rewrite Hc. symmetry.
  now apply reachable_gateInvariant.
Qed.

Lemma closed_gate_fist_counter_witness :
  canCrumple afterCrumple = false
  /\ gestureHoldCounter (handleGameLoop FIST 0.2 afterCrumple)
     = gestureHoldCounter afterCrumple.
Proof.
  split; [reflexivity|].
  refine (closed_gate_fist_counter afterCrumple 0.2%float _ eq_refl).
  exists halves, (samples FIST [0; 0; 0; 0; 0; 0]%float). reflexivity.
Defined.

(** ** What one call of [handleGameLoop] writes to the log *)

Lemma triggerCrumple_log (a : App) :
  log (triggerCrumple a) =
  match paperState a with
  | ACTIVE => AudioPlayCrumple :: SetPaperState CRUMPLED_1 :: CallTriggerCrumple :: log a
  | CRUMPLED_1 => AudioPlayCrumple :: SetPaperState CRUMPLED_2 :: CallTriggerCrumple :: log a
  | CRUMPLED_2 => AudioPlayCrumple :: SetPaperState CRUMPLED_FINAL :: CallTriggerCrumple :: log a
  | _ => CallTriggerCrumple :: log a
  end.
Proof. unfold triggerCrumple. cbn [paperState emit]. destruct (paperState a); reflexivity. Qed.

Lemma burnPaper_log (a : App) :
  log (burnPaper a) =
  if burnt (paperState a) then CallBurnPaper :: log a
  else AudioPlayBurn :: SetPaperState BURNING :: CallBurnPaper :: log a.
Proof. rewrite burnPaper_eq. destruct (burnt (paperState a)); reflexivity. Qed.

Lemma handleGameLoop_log (g : GestureType) (p : float) (a : App) :
  log (handleGameLoop g p a) =
  match g with
  | NONE => log a
  | FIST =>
      if fires FIST a
      then log (triggerCrumple (with_gestureHoldCounter (gestureHoldCounter a + 1) a))
      else log a
  | OPEN_PALM =>
      if burnTest (paperState a) OPEN_PALM p
      then log (burnPaper (with_gestureHoldCounter 0 (with_canCrumple true a)))
      else log a
  end.
Proof.
  unfold handleGameLoop, fires, burnTest.
  destruct g; cbn [GestureType_eqb orb andb negb].
  - cbn [canCrumple with_canCrumple paperState with_gestureHoldCounter].
    destruct (PaperState_eqb (paperState a) CRUMPLED_FINAL); reflexivity.
  - destruct (canCrumple a); cbn [andb].
    + cbn [gestureHoldCounter with_gestureHoldCounter].
      destruct (5 <? gestureHoldCounter a + 1).
      * match goal with |- context [PaperState_eqb ?s CRUMPLED_FINAL] =>
          destruct (PaperState_eqb s CRUMPLED_FINAL) end; reflexivity.
      * destruct (PaperState_eqb _ _); reflexivity.
    + cbn [paperState with_gestureHoldCounter].
      destruct (PaperState_eqb _ _); reflexivity.
  - cbn [canCrumple with_canCrumple paperState with_gestureHoldCounter].
    destruct (PaperState_eqb (paperState a) CRUMPLED_FINAL); cbn [andb];
      [|reflexivity].
    destruct (0.15 <? p)%float; reflexivity.
Qed.

(** C10. One call of [handleGameLoop] writes [paperState] at most once.  It
    calls [triggerCrumple] only on a FIST sample and [burnPaper] only on an
    OPEN_PALM sample, so no call does both. *)
Theorem one_transition_per_frame (g : GestureType) (p : float) (a : App) :
  (transitions (handleGameLoop g p a) <= S (transitions a))%nat
  /\ (crumples (handleGameLoop g p a) <> crumples a -> g = FIST)
  /\ (burnCalls (handleGameLoop g p a) <> burnCalls a -> g = OPEN_PALM)
  /\ (crumples (handleGameLoop g p a) = crumples a
      \/ burnCalls (handleGameLoop g p a) = burnCalls a).
Proof.
  unfold transitions, crumples, burnCalls.
  rewrite handleGameLoop_log.
  destruct g.
  - repeat split; auto; intros H; now elim H.
  - destruct (fires FIST a).
    + rewrite triggerCrumple_log. cbn [paperState with_gestureHoldCounter log].
      destruct (paperState a); cbn; repeat split; auto; intros H; now elim H.
    + repeat split; auto; intros H; now elim H.
  - destruct (burnTest (paperState a) OPEN_PALM p).
    + rewrite burnPaper_log.
      cbn [paperState with_gestureHoldCounter with_canCrumple log].
      destruct (burnt (paperState a)); cbn; repeat split; auto;
        intros H; now elim H.
    + repeat split; auto; intros H; now elim H.
Qed.

(** ** Timers *)

Lemma runTimers_paper (ts : list Timer) : forall a : App,
  paperState (runTimers ts a)
    = (if existsb isBurnOut ts then ASHES else paperState a)
  /\ sparks (runTimers ts a)
    = (if existsb isBurnOut ts then [] else sparks a)
  /\ timers (runTimers ts a) = timers a
  /\ clock (runTimers ts a) = clock a.
Proof.
  induction ts as [|t ts IH]; intros a.
  - repeat split.
  - destruct t as [d k]. cbn [runTimers fold_left existsb task].
    fold (runTimers ts (runTask k a)).
    destruct (IH (runTask k a)) as (H1 & H2 & H3 & H4).
    rewrite H1, H2, H3, H4.
    destruct (existsb isBurnOut ts), k; repeat split.
Qed.

Lemma existsb_enqueue (f : Timer -> bool) (t : Timer) (q : list Timer) :
  existsb f (enqueue t q) = f t || existsb f q.
Proof.
  induction q as [|u q IH]; [reflexivity|].
  cbn [enqueue]. destruct (due t <=? due u); [reflexivity|].
  cbn [existsb]. rewrite IH.
  destruct (f t), (f u); reflexivity.
Qed.

Lemma existsb_firingOrder (f : Timer -> bool) (ts : list Timer) :
  existsb f (firingOrder ts) = existsb f ts.
Proof.
  induction ts as [|t ts IH]; [reflexivity|].
  cbn [firingOrder fold_right]. fold (firingOrder ts).
  now rewrite existsb_enqueue, IH.
Qed.

Lemma existsb_filter (f g : Timer -> bool) (ts : list Timer) :
  existsb f (filter g ts) = existsb (fun t => g t && f t) ts.
Proof.
  induction ts as [|t ts IH]; [reflexivity|].
  cbn [filter existsb]. destruct (g t); cbn [existsb andb orb]; now rewrite IH.
Qed.

(** What a quiet interval does to the paper: it turns to ashes exactly when
    a burn timer has come due, whatever the state was. *)
Lemma elapse_paper (ms : N) (a : App) :
  paperState (elapse ms a)
    = (if existsb (burnDue (clock a + ms)) (timers a) then ASHES else paperState a)
  /\ sparks (elapse ms a)
    = (if existsb (burnDue (clock a + ms)) (timers a) then [] else sparks a)
  /\ timers (elapse ms a)
    = filter (fun t => negb (isDue (clock a + ms) t)) (timers a)
  /\ clock (elapse ms a) = clock a + ms.
Proof.
  unfold elapse.
  match goal with |- context [runTimers ?ts ?b] =>
    destruct (runTimers_paper ts b) as (H1 & H2 & H3 & H4) end.
  rewrite H1, H2, H3, H4, existsb_firingOrder, existsb_filter.
  repeat split.
Qed.

Lemma existsb_burnDue_in (now d : N) (ts : list Timer) :
  In (mkTimer d BurnOut) ts -> d <= now -> existsb (burnDue now) ts = true.
Proof.
  intros Hin Hd. apply existsb_exists. exists (mkTimer d BurnOut).
  split; [exact Hin|]. unfold burnDue, isDue, isBurnOut. cbn.
  rewrite andb_true_r. now apply N.leb_le.
Qed.

(** ** Burning *)

(** C4. In state CRUMPLED_FINAL an OPEN_PALM sample with proximity above
    0.15 sets the state to BURNING and the sparks to a batch of exactly 40;
    once 2500 ms have passed with no other input the state is ASHES and the
    sparks list is empty. *)
Theorem burn_then_ashes (a : App) (p : float) :
  paperState a = CRUMPLED_FINAL ->
  (0.15 <? p)%float = true ->
  let a1 := handleGameLoop OPEN_PALM p a in
  let a2 := elapse 2500 a1 in
  paperState a1 = BURNING
  /\ length (sparks a1) = 40%nat
  /\ paperState a2 = ASHES
  /\ sparks a2 = [].
Proof.
  intros Hs Hp a1 a2.
  assert (E : a1 = burnPaper (with_gestureHoldCounter 0 (with_canCrumple true a))).
  { unfold a1, handleGameLoop. cbn [GestureType_eqb orb andb].
    cbn [canCrumple with_canCrumple paperState with_gestureHoldCounter].
    now rewrite Hs, Hp. }
  rewrite burnPaper_eq in E.
  cbn [paperState with_gestureHoldCounter with_canCrumple] in E.
  rewrite Hs in E. cbn [burnt PaperState_eqb orb] in E.
  assert (Ht : In (mkTimer (clock a1 + 2500) BurnOut) (timers a1)).
  { rewrite E. cbn. apply in_or_app. right. now left. }
  destruct (elapse_paper 2500 a1) as (H1 & H2 & _).
  fold a2 in H1, H2.
  rewrite (existsb_burnDue_in _ _ _ Ht (N.le_refl _)) in H1, H2.
  repeat split; auto.
  - rewrite E. reflexivity.
  - rewrite E. cbn [sparks with_sparks setTimeout with_timers].
    now rewrite sparksLoop_length.
Qed.

Lemma burn_then_ashes_witness :
  paperState crumpledThrice = CRUMPLED_FINAL
  /\ (0.15 <? 0.2)%float = true
  /\ paperState (handleGameLoop OPEN_PALM 0.2 crumpledThrice) = BURNING
  /\ length (sparks (handleGameLoop OPEN_PALM 0.2 crumpledThrice)) = 40%nat
  /\ paperState (elapse 2500 (handleGameLoop OPEN_PALM 0.2 crumpledThrice)) = ASHES
  /\ sparks (elapse 2500 (handleGameLoop OPEN_PALM 0.2 crumpledThrice)) = [].
Proof.
  split; [reflexivity|]. split; [reflexivity|].
  exact (burn_then_ashes crumpledThrice 0.2%float eq_refl eq_refl).
Defined.

(** ** A reset in the middle of a burn *)

Lemma keepsTimers_refl (a : App) : keepsTimers a a.
Proof. repeat split; auto. Qed.

Lemma keepsTimers_trans (a b c : App) :
  keepsTimers a b -> keepsTimers b c -> keepsTimers a c.
Proof.
  intros (H1 & H2 & H3) (K1 & K2 & K3). repeat split.
  - congruence.
  - auto.
  - intros Hc. destruct (K3 Hc) as [Hb|Hin].
    + destruct (H3 Hb) as [Ha|Hin]; auto.
    + right. now rewrite <- H1.
Qed.

Lemma keepsTimers_pending (a b : App) :
  keepsTimers a b -> burnPending a -> burnPending b.
Proof.
  intros (H1 & H2 & H3) Ha Hb. destruct (H3 Hb) as [Hs|Hin].
  - destruct (Ha Hs) as (d & Hd & Hle). exists d. split; auto. now rewrite H1.
  - exists (clock a + 2500). split; auto. rewrite H1. apply N.le_refl.
Qed.

Lemma triggerCrumple_keepsTimers (a : App) : keepsTimers a (triggerCrumple a).
Proof.
  unfold triggerCrumple. cbn [paperState emit].
  destruct (paperState a) eqn:Hs; cbn; repeat split; auto;
    try (intros t Ht; apply in_or_app; now left);
    try discriminate.
Qed.

Lemma burnPaper_keepsTimers (a : App) : keepsTimers a (burnPaper a).
Proof.
  rewrite burnPaper_eq. destruct (burnt (paperState a)).
  - repeat split; auto.
  - repeat split.
    + intros t Ht. cbn. apply in_or_app. now left.
    + intros _. right. cbn. apply in_or_app. right. now left.
Qed.

Lemma handleGameLoop_keepsTimers (g : GestureType) (p : float) (a : App) :
  keepsTimers a (handleGameLoop g p a).
Proof.
  unfold handleGameLoop.
  set (a1 := if GestureType_eqb g OPEN_PALM || GestureType_eqb g NONE
             then with_canCrumple true a else a).
  assert (K1 : keepsTimers a a1).
  { unfold a1. destruct (_ || _); repeat split; auto. }
  cbv zeta.
  set (a2 := if GestureType_eqb g FIST && canCrumple a1 then _ else _).
  assert (K2 : keepsTimers a1 a2).
  { unfold a2. destruct (_ && _); [|repeat split; auto].
    cbn [gestureHoldCounter with_gestureHoldCounter].
    destruct (5 <? _); [|repeat split; auto].
    eapply keepsTimers_trans;
      [|eapply keepsTimers_trans;
          [apply (triggerCrumple_keepsTimers
                    (with_gestureHoldCounter (gestureHoldCounter a1 + 1) a1))|]];
      repeat split; auto. }
  assert (K3 : keepsTimers a a2) by (eapply keepsTimers_trans; eauto).
  destruct (PaperState_eqb (paperState a2) CRUMPLED_FINAL); [|exact K3].
  destruct (GestureType_eqb g OPEN_PALM && _); [|exact K3].
  eapply keepsTimers_trans; [exact K3|apply burnPaper_keepsTimers].
Qed.

Lemma step_burnPending (e : Event) (a : App) :
  burnPending a -> burnPending (step e a).
Proof.
  intros Ha. destruct e as [g p| |fs|fs| |ms]; cbn [step].
  - eapply keepsTimers_pending; [apply handleGameLoop_keepsTimers|exact Ha].
  - unfold triggerUpload. destruct (PaperState_eqb _ _); [|exact Ha].
    intros Hb. apply Ha. exact Hb.
  - unfold onFileSelected. destruct fs as [[|f fs]|]; try (intros Hb; apply Ha; exact Hb).
    intros Hb. discriminate Hb.
  - unfold onDrop. cbn [paperState emit].
    destruct (negb _); [intros Hb; apply Ha; exact Hb|].
    destruct fs as [[|f fs]|]; try (intros Hb; apply Ha; exact Hb).
    intros Hb. discriminate Hb.
  - intros Hb. discriminate Hb.
  - intros Hb.
    destruct (elapse_paper ms a) as (H1 & _ & H3 & H4).
    rewrite H1 in Hb.
    destruct (existsb (burnDue (clock a + ms)) (timers a)) eqn:Hex;
      [discriminate Hb|].
    destruct (Ha Hb) as (d & Hin & Hle).
    exists d. rewrite H3, H4. split; [|lia].
    apply filter_In. split; [exact Hin|].
    destruct (isDue (clock a + ms) (mkTimer d BurnOut)) eqn:Hdue; [|reflexivity].
    exfalso.
    assert (Htrue : existsb (burnDue (clock a + ms)) (timers a) = true).
    { apply existsb_exists. exists (mkTimer d BurnOut). split; [exact Hin|].
      unfold burnDue. now rewrite Hdue. }
    congruence.
Qed.

Lemma reachable_burnPending (a : App) : Reachable a -> burnPending a.
Proof.
  intros (rnd & es & ->).
  assert (H : forall es b, burnPending b -> burnPending (run es b)).
  { clear. induction es as [|e es IH]; intros b Hb; [exact Hb|].
    cbn [run fold_left]. apply IH. now apply step_burnPending. }
  apply H. intros Hb. discriminate Hb.
Qed.

(** C1 (what the code does). Wherever the component can be BURNING, [reset]
    sets the paper state to IDLE at once but leaves the burn timer pending:
    once 2500 ms or more have passed after the reset with no other input,
    the timer has run and the paper state is ASHES, not IDLE. *)
Theorem reset_leaves_burn_timer (a : App) :
  Reachable a ->
  paperState a = BURNING ->
  paperState (reset a) = IDLE
  /\ timers (reset a) = timers a
  /\ (forall ms : N, 2500 <= ms -> paperState (elapse ms (reset a)) = ASHES).
Proof.
  intros Hr Hb. repeat split.
  intros ms Hms.
  destruct (reachable_burnPending a Hr Hb) as (d & Hin & Hle).
  destruct (elapse_paper ms (reset a)) as (H1 & _).
  rewrite H1.
  rewrite (existsb_burnDue_in (clock (reset a) + ms) d (timers (reset a))); auto.
  cbn. lia.
Qed.

Lemma reset_leaves_burn_timer_witness :
  paperState midBurn = BURNING
  /\ paperState (reset midBurn) = IDLE
  /\ paperState (elapse 1499 (reset midBurn)) = IDLE
  /\ paperState (elapse 1500 (reset midBurn)) = ASHES
  /\ paperState (elapse 2500 (reset midBurn)) = ASHES.
Proof.
  split; [reflexivity|]. split; [reflexivity|].
  split; [reflexivity|]. split; [reflexivity|].
  refine (proj2 (proj2 (reset_leaves_burn_timer midBurn _ eq_refl)) 2500 _).
  - exists halves, burningScript. reflexivity.
  - discriminate.
Defined.

(** ** Loading a file *)

(** C9 (as the code has it). A dropped file is accepted only while the
    paper is IDLE, and then the state becomes ACTIVE; in any other state
    [onDrop] changes neither the paper state nor the file name and type.  A
    file chosen through the file input is loaded by [onFileSelected] in every
    state, which becomes ACTIVE; on that path the IDLE test is made earlier,
    by [triggerUpload], which opens the picker only while the paper is IDLE. *)
Theorem file_load_guards (a : App) (f : File) (fs : list File)
        (files : option (list File)) :
  (paperState a = IDLE ->
     paperState (onDrop (Some (f :: fs)) a) = ACTIVE
     /\ fileName (onDrop (Some (f :: fs)) a) = file_name f
     /\ fileType (onDrop (Some (f :: fs)) a) = file_type f)
  /\ (paperState a <> IDLE ->
        paperState (onDrop files a) = paperState a
        /\ fileName (onDrop files a) = fileName a
        /\ fileType (onDrop files a) = fileType a
        /\ transitions (onDrop files a) = transitions a)
  /\ (paperState (onFileSelected (Some (f :: fs)) a) = ACTIVE
      /\ fileName (onFileSelected (Some (f :: fs)) a) = file_name f
      /\ fileType (onFileSelected (Some (f :: fs)) a) = file_type f)
  /\ (paperState a <> IDLE -> triggerUpload a = a)
  /\ (paperState a = IDLE ->
        log (triggerUpload a) = FileInputClick :: AudioInit :: log a).
Proof.
  split; [|split; [|split; [|split]]].
  - intros H. unfold onDrop. cbn [paperState emit]. rewrite H.
    cbn [PaperState_eqb negb]. repeat split.
  - intros H. unfold onDrop. cbn [paperState emit].
    assert (E : PaperState_eqb (paperState a) IDLE = false)
      by (destruct (paperState a); try reflexivity; now elim H).
    rewrite E. cbn [negb]. repeat split; reflexivity.
  - repeat split.
  - intros H. unfold triggerUpload.
    destruct (paperState a); try reflexivity. now elim H.
  - intros H. unfold triggerUpload. rewrite H. reflexivity.
Qed.

Lemma file_load_guards_witness :
  paperState (initial halves) = IDLE
  /\ paperState (onDrop (Some [letter]) (initial halves)) = ACTIVE
  /\ paperState ashes <> IDLE
  /\ paperState (onDrop (Some [memo]) ashes) = paperState ashes
  /\ triggerUpload ashes = ashes.
Proof.
  pose proof (file_load_guards (initial halves) letter [] None) as Hidle.
  pose proof (file_load_guards ashes memo [] (Some [memo])) as Hashes.
  assert (Hne : paperState ashes <> IDLE)
    by (intros H; vm_compute in H; discriminate H).
  split; [reflexivity|].
  split; [exact (proj1 (proj1 Hidle eq_refl))|].
  split; [exact Hne|].
  split; [exact (proj1 (proj1 (proj2 Hashes) Hne))|].
  exact (proj1 (proj2 (proj2 (proj2 Hashes))) Hne).
Defined.

(** C9, refuted as stated: with the paper in ASHES, [onFileSelected] with a
    chosen file sets the state to ACTIVE and takes over the file's name. *)
Lemma file_selected_counterexample :
  paperState ashes = ASHES
  /\ paperState (onFileSelected (Some [memo]) ashes) = ACTIVE
  /\ fileName (onFileSelected (Some [memo]) ashes) = "memo.pdf"%string.
Proof. vm_compute. repeat split. Qed.

(** ** The classifier *)

Ltac split_float_tests :=
  repeat match goal with
  | |- context [(?u <? ?v)%float] => destruct (u <? v)%float
  end.

Lemma dist_euclid (a b : Landmark) : dist (Some a) (Some b) = Normal (euclid a b).
Proof. reflexivity. Qed.

(** With at least 21 landmarks the call completes, and the gesture it
    stores is decided by the number of curled fingers. *)
Lemma processGesture_enough (landmarks : list Landmark) (g : GestureService) :
  (21 <= length landmarks)%nat ->
  processGesture landmarks g
  = (mkGestureService (gestureOfCount (N.of_nat (curledFingers landmarks)))
                      (proximityOf landmarks),
     Normal tt).
Proof.
  intros H. unfold processGesture.
  cut (forEach (curlStep landmarks (index landmarks (Some 0%nat)) [5; 9; 13; 17]%nat)
               [8; 12; 16; 20]%nat 0%nat 0
       = Normal (N.of_nat (curledFingers landmarks))).
  { intros ->. reflexivity. }
  clear g. revert H.
  do 21 (destruct landmarks as [|? landmarks]; [cbn [length]; lia|]).
  intros _.
  unfold curledFingers, curled, tipOf, pipOf, euclid.
  cbn [filter nth_error forEach curlStep index bind dist Nat.sub].
  unfold Math_pow2.
  split_float_tests; reflexivity.
Qed.

(** C5. For every set of 21 landmarks the call completes; a finger among
    index, middle, ring and pinky counts as curled exactly when the distance
    [dist] computes from its tip to the wrist is strictly below the one from
    its PIP joint to the wrist; and with [c] the number of curled fingers the
    stored gesture is FIST for [c >= 3], OPEN_PALM for [c = 0] and NONE for
    [c = 1] and [c = 2]. *)
Theorem classify_by_curled_count (landmarks : list Landmark) (g : GestureService) :
  length landmarks = 21%nat ->
  let c := curledFingers landmarks in
  let gesture := currentGesture (fst (processGesture landmarks g)) in
  snd (processGesture landmarks g) = Normal tt
  /\ (forall f : Finger,
        curled landmarks f = true <->
        exists tip pip wrist dTip dPip,
          nth_error landmarks (tipOf f) = Some tip
          /\ nth_error landmarks (tipOf f - 2) = Some pip
          /\ nth_error landmarks 0 = Some wrist
          /\ dist (Some tip) (Some wrist) = Normal dTip
          /\ dist (Some pip) (Some wrist) = Normal dPip
          /\ (dTip <? dPip)%float = true)
  /\ (c <= 4)%nat
  /\ (3 <= c -> gesture = FIST)%nat
  /\ (c = 0%nat -> gesture = OPEN_PALM)
  /\ (c = 1%nat \/ c = 2%nat -> gesture = NONE).
Proof.
  intros H c gesture.
  assert (E : processGesture landmarks g
              = (mkGestureService (gestureOfCount (N.of_nat c)) (proximityOf landmarks),
                 Normal tt))
    by (apply processGesture_enough; lia).
  unfold gesture. rewrite E. cbn [fst snd currentGesture].
  split; [reflexivity|]. split; [|split; [|split; [|split]]].
  - intros f. unfold curled.
    replace (tipOf f - 2)%nat with (pipOf f) by (destruct f; reflexivity).
    split.
    + destruct (nth_error landmarks (tipOf f)) as [tip|]; [|discriminate].
      destruct (nth_error landmarks (pipOf f)) as [pip|]; [|discriminate].
      destruct (nth_error landmarks 0) as [wrist|]; [|discriminate].
      intros Hlt. exists tip, pip, wrist, (euclid tip wrist), (euclid pip wrist).
      repeat split; auto.
    + intros (tip & pip & wrist & dTip & dPip & -> & -> & -> & Ht & Hp & Hlt).
      rewrite dist_euclid in Ht, Hp. congruence.
  - unfold c, curledFingers.
    pose proof (filter_length_le (curled landmarks)
                  [IndexFinger; MiddleFinger; RingFinger; PinkyFinger]) as Hle.
    cbn [length] in Hle. exact Hle.
  - intros Hc. unfold gestureOfCount.
    destruct (3 <=? N.of_nat c) eqn:Ht; [reflexivity|].
    apply N.leb_gt in Ht. lia.
  - intros ->. reflexivity.
  - intros [-> | ->]; reflexivity.
Qed.

Lemma classify_by_curled_count_witness :
  length (hand true true true false) = 21%nat
  /\ curledFingers (hand true true true false) = 3%nat
  /\ currentGesture (fst (processGesture (hand true true true false) idleService))
     = FIST.
Proof.
  split; [reflexivity|]. split; [reflexivity|].
  refine (proj1 (proj2 (proj2 (proj2
     (classify_by_curled_count (hand true true true false) idleService eq_refl)))) _).
  vm_compute. lia.
Defined.

(** The classifier on schematic hands: three folded fingers make a fist, none
    an open palm, one or two neither. *)
Example three_folded_is_fist :
  currentGesture (fst (processGesture (hand false true true true) idleService)) = FIST.
Proof. reflexivity. Qed.

Example none_folded_is_open_palm :
  currentGesture (fst (processGesture (hand false false false false) idleService))
  = OPEN_PALM.
Proof. reflexivity. Qed.

Example two_folded_is_none :
  currentGesture (fst (processGesture (hand true false true false)
                         (mkGestureService FIST 0)))
  = NONE.
Proof. reflexivity. Qed.

(** ** Landmark sets of the wrong size *)

(** C6 (as the code has it). [processGesture] does not look at the number
    of landmarks.  With fewer than 21 it ends in a TypeError at the first
    missing landmark: the gesture keeps its previous value, while the
    proximity has already been stored.  With more than 21 it completes and
    classifies by the curled fingers, read from landmarks 0 to 20. *)
Theorem landmark_count_not_checked (landmarks : list Landmark) (g : GestureService) :
  ((length landmarks < 21)%nat ->
     processGesture landmarks g
     = (mkGestureService (currentGesture g) (proximityOf landmarks), TypeError))
  /\ ((21 < length landmarks)%nat ->
        processGesture landmarks g
        = (mkGestureService (gestureOfCount (N.of_nat (curledFingers landmarks)))
                            (proximityOf landmarks),
           Normal tt)
        /\ curledFingers landmarks = curledFingers (firstn 21 landmarks)).
Proof.
  split.
  - intros H. unfold processGesture.
    cut (forEach (curlStep landmarks (index landmarks (Some 0%nat)) [5; 9; 13; 17]%nat)
                 [8; 12; 16; 20]%nat 0%nat 0
         = TypeError).
    { intros ->. reflexivity. }
    clear g. revert H.
    do 21 (destruct landmarks as [|? landmarks]; [intros _; reflexivity|]).
    cbn [length]. lia.
  - intros H. split; [apply processGesture_enough; lia|].
    revert H.
    do 21 (destruct landmarks as [|? landmarks]; [cbn [length]; lia|]).
    intros _. reflexivity.
Qed.

Lemma landmark_count_not_checked_witness :
  (length twentyPoints < 21)%nat
  /\ processGesture twentyPoints idleService
     = (mkGestureService NONE (proximityOf twentyPoints), TypeError)
  /\ (21 < length twentyTwoPoints)%nat
  /\ snd (processGesture twentyTwoPoints idleService) = Normal tt.
Proof.
  assert (H20 : (length twentyPoints < 21)%nat) by (vm_compute; lia).
  assert (H22 : (21 < length twentyTwoPoints)%nat) by (vm_compute; lia).
  split; [exact H20|].
  split; [exact (proj1 (landmark_count_not_checked twentyPoints idleService) H20)|].
  split; [exact H22|].
  rewrite (proj1 (proj2 (landmark_count_not_checked twentyTwoPoints idleService) H22)).
  reflexivity.
Defined.

(** C6, refuted as stated: 22 landmarks are not rejected, the call
    completes and stores FIST; and with 20 landmarks the failing call has
    already replaced the stored proximity. *)
Lemma landmark_count_counterexample :
  length twentyTwoPoints = 22%nat
  /\ processGesture twentyTwoPoints idleService
     = (mkGestureService FIST (proximityOf twentyTwoPoints), Normal tt)
  /\ length twentyPoints = 20%nat
  /\ snd (processGesture twentyPoints idleService) = TypeError
  /\ handProximity (fst (processGesture twentyPoints idleService))
     <> handProximity idleService.
Proof.
  split; [reflexivity|]. split; [vm_compute; reflexivity|].
  split; [reflexivity|]. split; [vm_compute; reflexivity|].
  vm_compute. intros H. discriminate H.
Qed.

(** ** Scenarios *)

(** Six fists with a NONE after the third never reach the threshold. *)
Example interrupted_hold_never_fires :
  crumples (run (samples FIST [0; 0; 0]%float ++ Sample NONE 0
                   :: samples FIST [0; 0; 0]%float)
                (run [Drop (Some [letter])] (initial halves)))
  = 0%nat.
Proof. reflexivity. Qed.

(** Load, hold, release, hold, release, hold: one crumple stage per hold. *)
Example three_holds_three_stages :
  let loaded := run [Drop (Some [letter])] (initial halves) in
  let once := run sixFists loaded in
  let twice := run (Sample NONE 0 :: sixFists) once in
  let thrice := run (Sample NONE 0 :: sixFists) twice in
  map paperState [loaded; once; twice; thrice]
  = [ACTIVE; CRUMPLED_1; CRUMPLED_2; CRUMPLED_FINAL].
Proof. reflexivity. Qed.

(** Twelve fists in a row are one hold: one crumple. *)
Example long_hold_one_stage :
  paperState (run (sixFists ++ sixFists) (run [Drop (Some [letter])] (initial halves)))
  = CRUMPLED_1.
Proof. reflexivity. Qed.

(** The shake started by a crumple ends 400 ms later. *)
Example shake_lasts_400ms :
  let shaken := run (Drop (Some [letter]) :: sixFists) (initial halves) in
  map isShaking [shaken; elapse 399 shaken; elapse 400 shaken]
  = [true; true; false].
Proof. reflexivity. Qed.

(** An open palm that is too far away does not light the paper. *)
Example far_palm_does_not_burn :
  paperState (handleGameLoop OPEN_PALM 0.15 crumpledThrice) = CRUMPLED_FINAL
  /\ paperState (handleGameLoop OPEN_PALM 0.1 crumpledThrice) = CRUMPLED_FINAL.
Proof. split; reflexivity. Qed.

(** * Further properties of the component *)

(** ** [handleGameLoop] and [triggerCrumple] in closed form *)

Lemma triggerCrumple_eq (a : App) :
  triggerCrumple a =
  match paperState a with
  | ACTIVE | CRUMPLED_1 | CRUMPLED_2 =>
      setTimeout ShakeOff 400
        (with_isShaking true
           (emit AudioPlayCrumple
              (paperState_set (crumpledFrom (paperState a))
                 (emit CallTriggerCrumple a))))
  | _ => emit CallTriggerCrumple a
  end.
Proof.
  unfold triggerCrumple. cbn [paperState emit].
  destruct (paperState a); reflexivity.
Qed.

Lemma handleGameLoop_eq (g : GestureType) (p : float) (a : App) :
  handleGameLoop g p a =
  match g with
  | NONE => with_gestureHoldCounter 0 (with_canCrumple true a)
  | FIST =>
      if canCrumple a then
        if 5 <? gestureHoldCounter a + 1 then
          with_canCrumple false
            (with_gestureHoldCounter 0
               (triggerCrumple (with_gestureHoldCounter (gestureHoldCounter a + 1) a)))
        else with_gestureHoldCounter (gestureHoldCounter a + 1) a
      else with_gestureHoldCounter 0 a
  | OPEN_PALM =>
      if burnTest (paperState a) OPEN_PALM p
      then burnPaper (with_gestureHoldCounter 0 (with_canCrumple true a))
      else with_gestureHoldCounter 0 (with_canCrumple true a)
  end.
Proof.
  unfold handleGameLoop, burnTest.
  destruct g; cbn [GestureType_eqb orb andb negb].
  - cbn [canCrumple with_canCrumple paperState with_gestureHoldCounter].
    destruct (PaperState_eqb (paperState a) CRUMPLED_FINAL); reflexivity.
  - destruct (canCrumple a); cbn [andb].
    + cbn [gestureHoldCounter with_gestureHoldCounter].
      destruct (5 <? gestureHoldCounter a + 1).
      * match goal with |- context [PaperState_eqb ?s CRUMPLED_FINAL] =>
          destruct (PaperState_eqb s CRUMPLED_FINAL) end; reflexivity.
      * destruct (PaperState_eqb _ _); reflexivity.
    + cbn [paperState with_gestureHoldCounter].
      destruct (PaperState_eqb _ _); reflexivity.
  - cbn [canCrumple with_canCrumple paperState with_gestureHoldCounter].
    destruct (PaperState_eqb (paperState a) CRUMPLED_FINAL); cbn [andb];
      [|reflexivity].
    destruct (0.15 <? p)%float; reflexivity.
Qed.

(** ** The life cycle under gestures *)

Ltac fields :=
  cbn [paperState fileName fileType isShaking sparks gestureHoldCounter
       canCrumple clock timers entropy drawn log
       with_paperState with_fileName with_fileType with_isShaking with_sparks
       with_gestureHoldCounter with_canCrumple with_clock with_timers
       with_drawn emit paperState_set setTimeout] in *.

Lemma handleGameLoop_paper (g : GestureType) (p : float) (a : App) :
  paperState (handleGameLoop g p a) = nextPaper g p a
  /\ transitions (handleGameLoop g p a)
     = ((if PaperState_eqb (nextPaper g p a) (paperState a) then 0 else 1)
        + transitions a)%nat.
Proof.
  rewrite handleGameLoop_eq. unfold nextPaper, fires, burnTest, transitions.
  destruct g; cbn [GestureType_eqb andb].
  - rewrite andb_false_r. fields. split; [reflexivity|].
    destruct (paperState a); reflexivity.
  - rewrite andb_false_r.
    destruct (canCrumple a); cbn [andb].
    + destruct (5 <? gestureHoldCounter a + 1).
      * rewrite triggerCrumple_eq. fields.
        destruct (paperState a) eqn:Hp; fields; rewrite ?Hp; split; reflexivity.
      * fields. split; [reflexivity|]. destruct (paperState a); reflexivity.
    + fields. split; [reflexivity|]. destruct (paperState a); reflexivity.
  - destruct (PaperState_eqb (paperState a) CRUMPLED_FINAL) eqn:Hs; cbn [andb].
    + destruct (0.15 <? p)%float.
      * rewrite burnPaper_eq. fields.
        destruct (paperState a); try discriminate Hs. split; reflexivity.
      * fields. split; [reflexivity|]. destruct (paperState a); reflexivity.
    + fields. split; [reflexivity|]. destruct (paperState a); reflexivity.
Qed.

Lemma nextPaper_stage (g : GestureType) (p : float) (a : App) :
  stage (nextPaper g p a)
  = ((if PaperState_eqb (nextPaper g p a) (paperState a) then 0 else 1)
     + stage (paperState a))%nat.
Proof.
  unfold nextPaper, burnTest.
  destruct (fires g a).
  - destruct (paperState a); reflexivity.
  - destruct (paperState a); cbn [PaperState_eqb andb]; try reflexivity.
    destruct (GestureType_eqb g OPEN_PALM && (0.15 <? p)%float); reflexivity.
Qed.

(** X1. Under gesture samples alone the paper only moves forward, and by
    exactly one stage for each write of [paperState]: after any stream of
    samples the stage reached is the stage before plus the number of
    transitions the stream caused. *)
Theorem gestures_move_one_stage_per_transition
        (ss : list (GestureType * float)) (a : App) :
  (transitions a <= transitions (feed ss a))%nat
  /\ stage (paperState (feed ss a))
     = (stage (paperState a) + (transitions (feed ss a) - transitions a))%nat.
Proof.
  revert a. induction ss as [|[g p] ss IH]; intros a.
  - cbn. split; lia.
  - cbn [feed fold_left fst snd].
    fold (feed ss (handleGameLoop g p a)).
    destruct (IH (handleGameLoop g p a)) as [I1 I2].
    destruct (handleGameLoop_paper g p a) as [H1 H2].
    pose proof (nextPaper_stage g p a) as H3.
    rewrite I2, H1, H3. rewrite H2 in I1 |- *.
    destruct (PaperState_eqb (nextPaper g p a) (paperState a)); split; lia.
Qed.

Lemma handleGameLoop_deaf (g : GestureType) (p : float) (a : App) :
  deaf (paperState a) = true ->
  paperState (handleGameLoop g p a) = paperState a
  /\ transitions (handleGameLoop g p a) = transitions a
  /\ timers (handleGameLoop g p a) = timers a
  /\ sparks (handleGameLoop g p a) = sparks a
  /\ isShaking (handleGameLoop g p a) = isShaking a
  /\ fileName (handleGameLoop g p a) = fileName a.
Proof.
  intros Hd. rewrite handleGameLoop_eq. unfold burnTest.
  destruct g.
  - repeat split.
  - destruct (canCrumple a); [|repeat split].
    destruct (5 <? gestureHoldCounter a + 1); [|repeat split].
    rewrite triggerCrumple_eq. fields.
    destruct (paperState a) eqn:Hp; try discriminate Hd;
      repeat split; fields; auto.
  - destruct (paperState a) eqn:Hp; try discriminate Hd;
      repeat split; fields; auto.
Qed.

(** X2. No gesture leaves IDLE, BURNING or ASHES: in these states a stream
    of samples of any length changes neither the paper state nor the pending
    timers, the sparks, the shake flag or the file name, and writes no
    transition. *)
Theorem gestures_cannot_leave_deaf_states
        (ss : list (GestureType * float)) (a : App) :
  deaf (paperState a) = true ->
  paperState (feed ss a) = paperState a
  /\ transitions (feed ss a) = transitions a
  /\ timers (feed ss a) = timers a
  /\ sparks (feed ss a) = sparks a
  /\ isShaking (feed ss a) = isShaking a
  /\ fileName (feed ss a) = fileName a.
Proof.
  revert a. induction ss as [|[g p] ss IH]; intros a Hd.
  - repeat split.
  - cbn [feed fold_left fst snd].
    fold (feed ss (handleGameLoop g p a)).
    destruct (handleGameLoop_deaf g p a Hd) as (H1 & H2 & H3 & H4 & H5 & H6).
    destruct (IH (handleGameLoop g p a)) as (I1 & I2 & I3 & I4 & I5 & I6).
    + now rewrite H1.
    + repeat split; congruence.
Qed.

Lemma gestures_cannot_leave_deaf_states_witness :
  deaf (paperState ashes) = true
  /\ paperState (feed [(FIST, 0); (FIST, 0); (FIST, 0); (FIST, 0); (FIST, 0);
                       (FIST, 0); (OPEN_PALM, 0.9)]%float ashes) = paperState ashes.
Proof.
  split; [reflexivity|].
  exact (proj1 (gestures_cannot_leave_deaf_states
                  [(FIST, 0); (FIST, 0); (FIST, 0); (FIST, 0); (FIST, 0);
                   (FIST, 0); (OPEN_PALM, 0.9)]%float ashes eq_refl)).
Defined.

(** ** Counting frames *)

Lemma step_counter_bound (e : Event) (a : App) :
  gestureHoldCounter a <= 5 -> gestureHoldCounter (step e a) <= 5.
Proof.
  intros Ha. destruct (isSample e) eqn:He.
  - destruct e as [g p| | | | |]; try discriminate. cbn [step].
    destruct (handleGameLoop_debounce g p a) as (Hc & _ & _).
    rewrite Hc. unfold counts.
    destruct (GestureType_eqb g FIST && canCrumple a); cbn [andb]; [|lia].
    destruct (5 <? gestureHoldCounter a + 1) eqn:Ht; cbn [negb]; [lia|].
    apply N.ltb_ge in Ht. exact Ht.
  - destruct (step_debounce e a He) as (H1 & _ & _). now rewrite H1.
Qed.

(** X3. The hold counter never exceeds 5, in any state the component can
    reach. *)
Theorem hold_counter_at_most_five (a : App) :
  Reachable a -> gestureHoldCounter a <= 5.
Proof.
  intros (rnd & es & ->).
  assert (H : forall es b, gestureHoldCounter b <= 5 ->
                           gestureHoldCounter (run es b) <= 5).
  { clear. induction es as [|e es IH]; intros b Hb; [exact Hb|].
    cbn [run fold_left]. apply IH. now apply step_counter_bound. }
  apply H. cbn. lia.
Qed.

Lemma hold_counter_at_most_five_witness :
  gestureHoldCounter (run (samples FIST [0; 0; 0; 0; 0]%float) (initial halves)) <= 5.
Proof.
  apply hold_counter_at_most_five.
  exists halves, (samples FIST [0; 0; 0; 0; 0]%float). reflexivity.
Defined.

Lemma step_crumple_cost (e : Event) (a : App) :
  (6 * crumples (step e a) + N.to_nat (gestureHoldCounter (step e a))
   <= 6 * crumples a + N.to_nat (gestureHoldCounter a) + fists [e])%nat.
Proof.
  destruct (isSample e) eqn:He.
  - destruct e as [g p| | | | |]; try discriminate. cbn [step].
    destruct (handleGameLoop_debounce g p a) as (Hc & _ & Hn).
    rewrite Hc, Hn. unfold counts, fires, fists.
    destruct g; cbn [GestureType_eqb andb filter isFistSample length]; try lia.
    destruct (canCrumple a); cbn [andb]; [|lia].
    destruct (5 <? gestureHoldCounter a + 1) eqn:Ht; cbn [negb].
    + apply N.ltb_lt in Ht. lia.
    + lia.
  - destruct (step_debounce e a He) as (H1 & _ & H3). rewrite H1, H3. lia.
Qed.

Lemma fists_cons (e : Event) (es : list Event) :
  fists (e :: es) = (fists [e] + fists es)%nat.
Proof. unfold fists. cbn [filter]. destruct (isFistSample e); reflexivity. Qed.

Lemma run_crumple_cost (es : list Event) : forall a : App,
  (6 * crumples (run es a) + N.to_nat (gestureHoldCounter (run es a))
   <= 6 * crumples a + N.to_nat (gestureHoldCounter a) + fists es)%nat.
Proof.
  induction es as [|e es IH]; intros a.
  - cbn. lia.
  - cbn [run fold_left]. fold (run es (step e a)).
    pose proof (IH (step e a)). pose proof (step_crumple_cost e a).
    rewrite fists_cons. lia.
Qed.

(** X4. Every call of [triggerCrumple] is paid for with six FIST samples:
    whatever events the component has seen since it was created, six times
    the number of calls is at most the number of FIST samples among them. *)
Theorem each_crumple_costs_six_fists (rnd : nat -> float) (es : list Event) :
  (6 * crumples (run es (initial rnd)) <= fists es)%nat.
Proof.
  pose proof (run_crumple_cost es (initial rnd)) as H.
  cbn in H. lia.
Qed.

Lemma feed_shortHolds (ss : list (GestureType * float)) : forall (c : nat) (a : App),
  (N.to_nat (gestureHoldCounter a) <= c)%nat ->
  shortHolds c ss = true ->
  crumples (feed ss a) = crumples a.
Proof.
  induction ss as [|[g p] ss IH]; intros c a Hc Hs; [reflexivity|].
  cbn [feed fold_left fst snd]. fold (feed ss (handleGameLoop g p a)).
  destruct (handleGameLoop_debounce g p a) as (Kc & _ & Kn).
  unfold counts, fires in *.
  destruct g; cbn [shortHolds GestureType_eqb andb] in *.
  - rewrite (IH 0%nat); [exact Kn| |exact Hs]. rewrite Kc. cbn. lia.
  - apply andb_true_iff in Hs as [Hle Hs]. apply Nat.leb_le in Hle.
    assert (Ht : (5 <? gestureHoldCounter a + 1) = false)
      by (apply N.ltb_ge; lia).
    rewrite Ht in *. rewrite andb_false_r in Kn.
    rewrite (IH (S c)); [exact Kn| |exact Hs].
    rewrite Kc. destruct (canCrumple a); cbn [andb negb]; lia.
  - rewrite (IH 0%nat); [exact Kn| |exact Hs]. rewrite Kc. cbn. lia.
Qed.

(** X5. A stream of samples in which no run of consecutive FIST samples is
    longer than five never calls [triggerCrumple], however long the stream
    and whatever else it contains; the state it starts from needs a hold
    counter of 0 and nothing else. *)
Theorem short_holds_never_crumple (ss : list (GestureType * float)) (a : App) :
  gestureHoldCounter a = 0 ->
  shortHolds 0 ss = true ->
  crumples (feed ss a) = crumples a.
Proof.
  intros H0 Hs. apply (feed_shortHolds ss 0%nat a); [|exact Hs].
  rewrite H0. cbn. lia.
Qed.

Lemma short_holds_never_crumple_witness :
  gestureHoldCounter (initial halves) = 0
  /\ shortHolds 0 hesitant = true
  /\ crumples (feed hesitant (initial halves)) = crumples (initial halves).
Proof.
  split; [reflexivity|]. split; [reflexivity|].
  exact (short_holds_never_crumple hesitant (initial halves) eq_refl eq_refl).
Defined.

(** ** Invariants of the visible state *)

Ltac hgl_cases g p a :=
  rewrite (handleGameLoop_eq g p a); unfold burnTest;
  destruct g;
  [ | destruct (canCrumple a) eqn:?Hgate;
      [ destruct (5 <? gestureHoldCounter a + 1) eqn:?Hfull;
        [ rewrite triggerCrumple_eq; fields; destruct (paperState a) eqn:?Hp | ] | ]
    | destruct (paperState a) eqn:?Hp; cbn [PaperState_eqb andb GestureType_eqb];
      try (destruct (0.15 <? p)%float eqn:?Hnear;
           [ rewrite burnPaper_eq; fields; rewrite ?Hp;
             cbn [burnt PaperState_eqb orb] | ]) ];
  fields.

Lemma runTimers_keeps {X : Type} (obs : App -> X) :
  (forall k a, obs (runTask k a) = obs a) ->
  forall ts a, obs (runTimers ts a) = obs a.
Proof.
  intros Hk. induction ts as [|t ts IH]; intros a; [reflexivity|].
  cbn [runTimers fold_left]. fold (runTimers ts (runTask (task t) a)).
  now rewrite IH, Hk.
Qed.

Lemma elapse_keeps {X : Type} (obs : App -> X) :
  (forall k a, obs (runTask k a) = obs a) ->
  (forall v a, obs (with_clock v a) = obs a) ->
  (forall v a, obs (with_timers v a) = obs a) ->
  forall ms a, obs (elapse ms a) = obs a.
Proof.
  intros Hk Hc Ht ms a. unfold elapse.
  now rewrite (runTimers_keeps obs Hk), Hc, Ht.
Qed.

Lemma elapse_tidy_fields (ms : N) (a : App) :
  fileName (elapse ms a) = fileName a
  /\ count isCrumpleSound (elapse ms a) = count isCrumpleSound a
  /\ count isCrumpleWrite (elapse ms a) = count isCrumpleWrite a
  /\ count isBurnSound (elapse ms a) = count isBurnSound a
  /\ count isBurnWrite (elapse ms a) = count isBurnWrite a.
Proof.
  repeat split; apply elapse_keeps; try reflexivity;
    intros [|] b; reflexivity.
Qed.

Ltac tidy_finish :=
  rewrite ?sparksLoop_length;
  cbn [crumpledFrom filter isCrumpleSound isCrumpleWrite isBurnSound
       isBurnWrite length app] in *;
  intuition (try discriminate; try congruence; try lia).

Lemma step_tidy (e : Event) (a : App) : tidy a -> tidy (step e a).
Proof.
  unfold tidy, count.
  intros (Hburn & Hsp & Hidle & Hcs & Hbs).
  destruct e as [g p| |fs|fs| |ms]; cbn [step].
  - hgl_cases g p a; tidy_finish.
  - unfold triggerUpload. destruct (PaperState_eqb _ _); fields; tidy_finish.
  - unfold onFileSelected, handleFile.
    destruct fs as [[|f fs]|]; fields; tidy_finish.
  - unfold onDrop, handleFile. fields.
    destruct (paperState a) eqn:Hp; cbn [PaperState_eqb negb];
      try destruct fs as [[|f fs]|]; fields; tidy_finish.
  - unfold reset. fields. tidy_finish.
  - destruct (elapse_paper ms a) as (H1 & H2 & _).
    destruct (elapse_tidy_fields ms a) as (F1 & F3 & F4 & F5 & F6).
    unfold count in *. rewrite H1, H2, F1, F3, F4, F5, F6.
    destruct (existsb (burnDue (clock a + ms)) (timers a)); tidy_finish.
Qed.

Lemma reachable_tidy (a : App) : Reachable a -> tidy a.
Proof.
  intros (rnd & es & ->).
  assert (H : forall es b, tidy b -> tidy (run es b)).
  { clear. induction es as [|e es IH]; intros b Hb; [exact Hb|].
    cbn [run fold_left]. apply IH. now apply step_tidy. }
  apply H. unfold tidy, count. cbn. intuition discriminate.
Qed.

(** X6. In every state the component can reach, a BURNING paper shows
    exactly 40 sparks, and the sparks list is at all times either empty or a
    batch of 40. *)
Theorem burning_paper_has_forty_sparks (a : App) :
  Reachable a ->
  (paperState a = BURNING -> length (sparks a) = 40%nat)
  /\ (sparks a = [] \/ length (sparks a) = 40%nat).
Proof.
  intros Hr. destruct (reachable_tidy a Hr) as (H1 & H2 & _). auto.
Qed.

Lemma burning_paper_has_forty_sparks_witness :
  paperState midBurn = BURNING /\ length (sparks midBurn) = 40%nat.
Proof.
  split; [reflexivity|].
  refine (proj1 (burning_paper_has_forty_sparks midBurn _) eq_refl).
  exists halves, burningScript. reflexivity.
Defined.

(** X7. In every state the component can reach, an IDLE paper has no file
    name and no sparks. *)
Theorem idle_paper_is_blank (a : App) :
  Reachable a ->
  paperState a = IDLE ->
  fileName a = EmptyString /\ sparks a = [].
Proof.
  intros Hr Hs. destruct (reachable_tidy a Hr) as (_ & _ & H3 & _). auto.
Qed.

Lemma idle_paper_is_blank_witness :
  fileName (reset midBurn) = EmptyString /\ sparks (reset midBurn) = [].
Proof.
  refine (idle_paper_is_blank (reset midBurn) _ eq_refl).
  exists halves, (burningScript ++ [ResetRequested]). reflexivity.
Defined.

(** X8. Over the whole life of the component every crumple sound goes
    with one write of a crumpled stage and every burn sound with one write of
    BURNING, and the other way round: a guarded call that changes nothing
    makes no sound. *)
Theorem sounds_match_transitions (a : App) :
  Reachable a ->
  count isCrumpleSound a = count isCrumpleWrite a
  /\ count isBurnSound a = count isBurnWrite a.
Proof.
  intros Hr. destruct (reachable_tidy a Hr) as (_ & _ & _ & H4 & H5). auto.
Qed.

Lemma sounds_match_transitions_witness :
  count isCrumpleSound midBurn = 3%nat
  /\ count isBurnSound midBurn = 1%nat
  /\ count isCrumpleSound midBurn = count isCrumpleWrite midBurn
  /\ count isBurnSound midBurn = count isBurnWrite midBurn.
Proof.
  split; [reflexivity|]. split; [reflexivity|].
  apply sounds_match_transitions.
  exists halves, burningScript. reflexivity.
Defined.

(** ** Timed effects always come to an end *)

(** X9. Wherever the component can be BURNING, 2500 ms or more without
    input turn the paper to ASHES and clear the sparks. *)
Theorem burn_always_ends (a : App) (ms : N) :
  Reachable a ->
  paperState a = BURNING ->
  2500 <= ms ->
  paperState (elapse ms a) = ASHES /\ sparks (elapse ms a) = [].
Proof.
  intros Hr Hb Hms.
  destruct (reachable_burnPending a Hr Hb) as (d & Hin & Hle).
  destruct (elapse_paper ms a) as (H1 & H2 & _).
  rewrite H1, H2, (existsb_burnDue_in (clock a + ms) d (timers a)); auto.
  lia.
Qed.

Lemma burn_always_ends_witness :
  paperState midBurn = BURNING
  /\ paperState (elapse 2500 midBurn) = ASHES
  /\ sparks (elapse 2500 midBurn) = [].
Proof.
  split; [reflexivity|].
  refine (burn_always_ends midBurn 2500 _ eq_refl _).
  - exists halves, burningScript. reflexivity.
  - discriminate.
Defined.

Lemma runTimers_shake (ts : list Timer) : forall a : App,
  isShaking (runTimers ts a)
  = (if existsb isShakeOff ts then false else isShaking a).
Proof.
  induction ts as [|t ts IH]; intros a; [reflexivity|].
  destruct t as [d k]. cbn [runTimers fold_left existsb].
  fold (runTimers ts (runTask k a)). rewrite IH.
  destruct (existsb isShakeOff ts), k; reflexivity.
Qed.

Lemma elapse_shake (ms : N) (a : App) :
  isShaking (elapse ms a)
  = (if existsb (shakeDue (clock a + ms)) (timers a) then false else isShaking a).
Proof.
  unfold elapse.
  now rewrite runTimers_shake, existsb_firingOrder, existsb_filter.
Qed.

Lemma step_shakePending (e : Event) (a : App) :
  shakePending a -> shakePending (step e a).
Proof.
  unfold shakePending. intros Ha.
  destruct e as [g p| |fs|fs| |ms]; cbn [step].
  - hgl_cases g p a; try exact Ha.
    + intros _. exists (clock a + 400). split; [|lia].
      apply in_or_app. right. now left.
    + intros _. exists (clock a + 400). split; [|lia].
      apply in_or_app. right. now left.
    + intros _. exists (clock a + 400). split; [|lia].
      apply in_or_app. right. now left.
    + intros Hs. destruct (Ha Hs) as (d & Hin & Hle).
      exists d. split; [|exact Hle]. apply in_or_app. now left.
  - unfold triggerUpload. destruct (PaperState_eqb _ _); exact Ha.
  - unfold onFileSelected. destruct fs as [[|f fs]|]; exact Ha.
  - unfold onDrop. fields. destruct (negb _); [exact Ha|].
    destruct fs as [[|f fs]|]; exact Ha.
  - exact Ha.
  - rewrite elapse_shake.
    destruct (elapse_paper ms a) as (_ & _ & H3 & H4). rewrite H3, H4.
    destruct (existsb (shakeDue (clock a + ms)) (timers a)) eqn:Hex;
      [discriminate|].
    intros Hs. destruct (Ha Hs) as (d & Hin & Hle).
    exists d. split; [|lia].
    apply filter_In. split; [exact Hin|].
    destruct (isDue (clock a + ms) (mkTimer d ShakeOff)) eqn:Hdue; [|reflexivity].
    exfalso.
    assert (Htrue : existsb (shakeDue (clock a + ms)) (timers a) = true).
    { apply existsb_exists. exists (mkTimer d ShakeOff). split; [exact Hin|].
      unfold shakeDue. now rewrite Hdue. }
    congruence.
Qed.

Lemma reachable_shakePending (a : App) : Reachable a -> shakePending a.
Proof.
  intros (rnd & es & ->).
  assert (H : forall es b, shakePending b -> shakePending (run es b)).
  { clear. induction es as [|e es IH]; intros b Hb; [exact Hb|].
    cbn [run fold_left]. apply IH. now apply step_shakePending. }
  apply H. intros Hb. discriminate Hb.
Qed.

(** X10. In every state the component can reach, 400 ms or more without
    input leave the paper not shaking: no shake outlives its pulse. *)
Theorem shake_always_ends (a : App) (ms : N) :
  Reachable a ->
  400 <= ms ->
  isShaking (elapse ms a) = false.
Proof.
  intros Hr Hms. rewrite elapse_shake.
  destruct (existsb (shakeDue (clock a + ms)) (timers a)) eqn:Hex; [reflexivity|].
  destruct (isShaking a) eqn:Hs; [|reflexivity].
  destruct (reachable_shakePending a Hr Hs) as (d & Hin & Hle).
  assert (Htrue : existsb (shakeDue (clock a + ms)) (timers a) = true).
  { apply existsb_exists. exists (mkTimer d ShakeOff). split; [exact Hin|].
    unfold shakeDue, isDue, isShakeOff. cbn. rewrite andb_true_r.
    apply N.leb_le. lia. }
  congruence.
Qed.

Lemma shake_always_ends_witness :
  isShaking shaken = true /\ isShaking (elapse 400 shaken) = false.
Proof.
  split; [reflexivity|].
  refine (shake_always_ends shaken 400 _ _).
  - exists halves, (Drop (Some [letter]) :: sixFists). reflexivity.
  - discriminate.
Defined.

(** * AudioService *)

Ltac audio_finish :=
  cbn; repeat split; intros; try discriminate; auto; try lia;
  try (eexists _, _; repeat split; auto; lia).

Lemma audio_step_wellTimed (e : Audio.Event) (s : Audio.Service) :
  Audio.wellTimed s -> Audio.wellTimed (Audio.step e s).
Proof.
  destruct s as [c m n p f o]. unfold Audio.wellTimed, Audio.contexts.
  cbn [Audio.ctx Audio.isMusicPlaying Audio.nextNoteTimer Audio.pending
       Audio.fresh Audio.out].
  intros (Hon & Hoff & Hctx).
  destruct m.
  - destruct (Hon eq_refl) as (-> & h & d & -> & -> & Hlt). clear Hon Hoff.
    destruct e as [b|b t r1 r2| |b|b|h' t r1 r2].
    + destruct b; audio_finish.
    + audio_finish.
    + cbn. rewrite Nat.eqb_refl. audio_finish.
    + destruct b; audio_finish.
    + destruct b; audio_finish.
    + cbn [Audio.step]. unfold Audio.fire.
      cbn [Audio.pending existsb filter fst orb negb].
      destruct (Nat.eqb h h'); audio_finish.
  - pose proof (Hoff eq_refl) as Hp. cbn in Hp. subst p. clear Hon Hoff.
    destruct e as [b|b t r1 r2| |b|b|h' t r1 r2].
    + destruct b, c; audio_finish.
    + destruct b, c; cbn in Hctx; audio_finish.
    + destruct n; audio_finish.
    + destruct b, c; audio_finish.
    + destruct b, c; audio_finish.
    + audio_finish.
Qed.

Lemma audio_reachable_wellTimed (s : Audio.Service) :
  Audio.Reachable s -> Audio.wellTimed s.
Proof.
  intros (es & ->).
  assert (H : forall es t, Audio.wellTimed t -> Audio.wellTimed (Audio.run es t)).
  { clear. induction es as [|e es IH]; intros t Ht; [exact Ht|].
    cbn [Audio.run fold_left]. apply IH. now apply audio_step_wellTimed. }
  apply H. unfold Audio.wellTimed. cbn. repeat split; intros; discriminate.
Qed.

(** X11. The music never doubles and never stalls: in every state the
    service can reach, while [isMusicPlaying] is set exactly one note timer
    is pending, the one whose handle [nextNoteTimer] holds, and while it is
    not set no timer is pending at all. *)
Theorem music_has_exactly_one_timer (s : Audio.Service) :
  Audio.Reachable s ->
  (Audio.isMusicPlaying s = true ->
     exists h d, Audio.nextNoteTimer s = Some h /\ Audio.pending s = [(h, d)])
  /\ (Audio.isMusicPlaying s = false -> Audio.pending s = []).
Proof.
  intros Hr. destruct (audio_reachable_wellTimed s Hr) as (Hon & Hoff & _).
  split; [|exact Hoff].
  intros Hm. destruct (Hon Hm) as (_ & h & d & H1 & H2 & _).
  exists h, d. auto.
Qed.

Lemma music_has_exactly_one_timer_witness :
  Audio.isMusicPlaying secondRound = true
  /\ exists h d, Audio.nextNoteTimer secondRound = Some h
                 /\ Audio.pending secondRound = [(h, d)].
Proof.
  split; [reflexivity|].
  refine (proj1 (music_has_exactly_one_timer secondRound _) eq_refl).
  eexists. reflexivity.
Defined.

(** X12. The service creates at most one [AudioContext], whatever is
    called and however often: one once [ctx] is set, none before; and once
    set, [ctx] stays set. *)
Theorem one_audio_context (es : list Audio.Event) :
  Audio.contexts (Audio.run es Audio.initial)
  = (if Audio.ctx (Audio.run es Audio.initial) then 1 else 0)%nat
  /\ forall s, Audio.ctx s = true -> Audio.ctx (Audio.run es s) = true.
Proof.
  split.
  - apply audio_reachable_wellTimed. now exists es.
  - induction es as [|e es IH]; intros s Hs; [exact Hs|].
    cbn [Audio.run fold_left]. apply IH.
    destruct s as [c m n p f o]. cbn in Hs. subst c.
    destruct e as [b|b t r1 r2| |b|b|h' t r1 r2]; cbn.
    + destruct b; reflexivity.
    + destruct m; [reflexivity|]. destruct b; reflexivity.
    + destruct n; reflexivity.
    + destruct b; reflexivity.
    + destruct b; reflexivity.
    + unfold Audio.fire. cbn [Audio.pending].
      destruct (existsb _ p); [|reflexivity].
      unfold Audio.playNextNote. cbn. destruct m; reflexivity.
Qed.

Lemma audio_step_silent (e : Audio.Event) (s : Audio.Service) :
  Audio.isStart e = false ->
  Audio.isMusicPlaying s = false ->
  Audio.isMusicPlaying (Audio.step e s) = false
  /\ Audio.notes (Audio.step e s) = Audio.notes s.
Proof.
  intros He Hs. destruct s as [c m n p f o]. cbn in Hs. subst m.
  unfold Audio.notes.
  destruct e as [b|b t r1 r2| |b|b|h' t r1 r2]; try discriminate He; cbn.
  - destruct b, c; split; reflexivity.
  - destruct n; split; reflexivity.
  - destruct b, c; split; reflexivity.
  - destruct b, c; split; reflexivity.
  - unfold Audio.fire. cbn [Audio.pending].
    destruct (existsb _ p); split; reflexivity.
Qed.

(** X13. After [stopMusic] no note is played until [startMusic] is called
    again: whatever else is called and whichever timers still fire, from
    whatever state the service was stopped in. *)
Theorem stopped_music_stays_silent (s : Audio.Service) (es : list Audio.Event) :
  forallb (fun e => negb (Audio.isStart e)) es = true ->
  Audio.isMusicPlaying (Audio.run es (Audio.stopMusic s)) = false
  /\ Audio.notes (Audio.run es (Audio.stopMusic s)) = Audio.notes s.
Proof.
  intros Hes.
  assert (H : forall es t,
             forallb (fun e => negb (Audio.isStart e)) es = true ->
             Audio.isMusicPlaying t = false ->
             Audio.isMusicPlaying (Audio.run es t) = false
             /\ Audio.notes (Audio.run es t) = Audio.notes t).
  { clear. induction es as [|e es IH]; intros t Hes Ht; [auto|].
    cbn [forallb] in Hes. apply andb_true_iff in Hes as [He Hes].
    apply negb_true_iff in He.
    destruct (audio_step_silent e t He Ht) as [H1 H2].
    change (Audio.run (e :: es) t) with (Audio.run es (Audio.step e t)).
    destruct (IH (Audio.step e t) Hes H1) as [I1 I2].
    split; [exact I1|congruence]. }
  destruct (H es (Audio.stopMusic s) Hes) as [H1 H2].
  - destruct s as [c m n p f o]. destruct n; reflexivity.
  - split; [exact H1|]. rewrite H2.
    destruct s as [c m n p f o]. destruct n; reflexivity.
Qed.

Lemma stopped_music_stays_silent_witness :
  Audio.notes (Audio.run [Audio.Fire 3 9 0.5 0.5; Audio.PlayBurn false;
                          Audio.Fire 1 9 0.5 0.5]%float
                         (Audio.stopMusic secondRound))
  = Audio.notes secondRound.
Proof.
  exact (proj2 (stopped_music_stays_silent secondRound
                  [Audio.Fire 3 9 0.5 0.5; Audio.PlayBurn false;
                   Audio.Fire 1 9 0.5 0.5]%float eq_refl)).
Defined.

Lemma audio_step_playing (e : Audio.Event) (s : Audio.Service) :
  Audio.isMusicPlaying (Audio.step e s)
  = match Audio.callOf e with
    | Some Audio.CallStart => true
    | Some Audio.CallStop => false
    | _ => Audio.isMusicPlaying s
    end.
Proof.
  destruct s as [c m n p f o].
  destruct e as [b|b t r1 r2| |b|b|h' t r1 r2]; cbn.
  - destruct b, c; reflexivity.
  - destruct m; [reflexivity|]. destruct b, c; reflexivity.
  - destruct n; reflexivity.
  - destruct b, c; reflexivity.
  - destruct b, c; reflexivity.
  - unfold Audio.fire. cbn [Audio.pending].
    destruct (existsb _ p); [|reflexivity].
    unfold Audio.playNextNote. cbn. destruct m, c; reflexivity.
Qed.

Lemma audio_run_app (es1 es2 : list Audio.Event) (s : Audio.Service) :
  Audio.run (es1 ++ es2) s = Audio.run es2 (Audio.run es1 s).
Proof. unfold Audio.run. apply fold_left_app. Qed.

Lemma audio_calls_app (es1 es2 : list Audio.Event) :
  Audio.calls (es1 ++ es2) = Audio.calls es1 ++ Audio.calls es2.
Proof.
  induction es1 as [|e es1 IH]; [reflexivity|].
  cbn [app Audio.calls]. destruct (Audio.callOf e); cbn [app]; now rewrite IH.
Qed.

Lemma audio_playing_is_wanted (es : list Audio.Event) :
  Audio.isMusicPlaying (Audio.run es Audio.initial)
  = Audio.wanted (rev (Audio.calls es)).
Proof.
  induction es as [|e es IH] using rev_ind; [reflexivity|].
  rewrite audio_run_app, audio_calls_app. cbn [Audio.run fold_left].
  rewrite audio_step_playing, rev_app_distr.
  cbn [Audio.calls]. destruct (Audio.callOf e) as [[| | | |]|];
    cbn [rev app Audio.wanted]; auto.
Qed.

(** ** The music and the paper *)

Lemma elapse_audioCalls (ms : N) (a : App) :
  audioCalls (log (elapse ms a)) = audioCalls (log a).
Proof.
  apply (elapse_keeps (fun a => audioCalls (log a))); try reflexivity.
  intros [|] b; reflexivity.
Qed.

Lemma step_musicFollows (e : Event) (a : App) :
  musicFollows a -> musicFollows (step e a).
Proof.
  unfold musicFollows. intros (Hon & Hoff).
  destruct e as [g p| |fs|fs| |ms]; cbn [step].
  - hgl_cases g p a; cbn [audioCalls audioCall Audio.wanted crumpledFrom onTable];
      split; intros; rewrite ?Hp in *; cbn [onTable] in *;
      try discriminate; try congruence; auto.
  - unfold triggerUpload. destruct (PaperState_eqb _ _); fields;
      cbn [audioCalls audioCall Audio.wanted]; auto.
  - unfold onFileSelected, handleFile. destruct fs as [[|f fs]|]; fields;
      cbn [audioCalls audioCall Audio.wanted]; split; intros;
      try discriminate; auto.
  - unfold onDrop, handleFile. fields.
    destruct (negb _); [|destruct fs as [[|f fs]|]]; fields;
      cbn [audioCalls audioCall Audio.wanted]; split; intros;
      try discriminate; auto.
  - unfold reset. fields. cbn [audioCalls audioCall Audio.wanted onTable].
    split; intros; try discriminate; auto.
  - rewrite elapse_audioCalls.
    destruct (elapse_paper ms a) as (H1 & _). rewrite H1.
    destruct (existsb _ _); cbn [onTable]; split; intros;
      try discriminate; auto.
Qed.

Lemma reachable_musicFollows (a : App) : Reachable a -> musicFollows a.
Proof.
  intros (rnd & es & ->).
  assert (H : forall es b, musicFollows b -> musicFollows (run es b)).
  { clear. induction es as [|e es IH]; intros b Hb; [exact Hb|].
    cbn [run fold_left]. apply IH. now apply step_musicFollows. }
  apply H. split; intros; [discriminate|reflexivity].
Qed.

(** X14. The music follows the paper.  Let the service receive the calls
    the component has made so far, in their order, with any timers firing in
    between and whatever Web Audio reports: then [isMusicPlaying] is set
    whenever a paper is on the table (ACTIVE up to BURNING) and not set
    whenever the component is IDLE. *)
Theorem music_follows_paper (a : App) (es : list Audio.Event) :
  Reachable a ->
  Audio.calls es = rev (audioCalls (log a)) ->
  (onTable (paperState a) = true ->
     Audio.isMusicPlaying (Audio.run es Audio.initial) = true)
  /\ (paperState a = IDLE ->
        Audio.isMusicPlaying (Audio.run es Audio.initial) = false).
Proof.
  intros Hr Hes. rewrite audio_playing_is_wanted, Hes, rev_involutive.
  exact (reachable_musicFollows a Hr).
Qed.

Lemma music_follows_paper_witness :
  onTable (paperState midBurn) = true
  /\ Audio.isMusicPlaying (Audio.run midBurnAudio Audio.initial) = true.
Proof.
  split; [reflexivity|].
  refine (proj1 (music_follows_paper midBurn midBurnAudio _ eq_refl) eq_refl).
  exists halves, burningScript. reflexivity.
Defined.

(** * Further properties of the classifier *)

(** ** Comparing doubles *)

Lemma SFcompare_antisym (f1 f2 : SpecFloat.spec_float) :
  SpecFloat.SFcompare f2 f1 = option_map CompOpp (SpecFloat.SFcompare f1 f2).
Proof.
  destruct f1 as [s1|s1| |s1 m1 e1], f2 as [s2|s2| |s2 m2 e2];
    try destruct s1; try destruct s2; try reflexivity;
    assert (Hm : BinPos.Pos.compare_cont Eq m2 m1
                 = CompOpp (BinPos.Pos.compare_cont Eq m1 m2))
      by (symmetry; apply (BinPos.Pos.compare_cont_antisym m1 m2 Eq));
    cbn; rewrite (BinInt.Z.compare_antisym e2 e1);
    destruct (BinInt.Z.compare e2 e1); cbn; try reflexivity;
    rewrite Hm, ?CompOpp_involutive; reflexivity.
Qed.

Lemma SFcompare_none (f1 f2 : SpecFloat.spec_float) :
  SpecFloat.SFcompare f1 f2 = None ->
  f1 = SpecFloat.S754_nan \/ f2 = SpecFloat.S754_nan.
Proof.
  destruct f1 as [s1|s1| |s1 m1 e1], f2 as [s2|s2| |s2 m2 e2]; cbn;
    intros H; try discriminate H; auto.
Qed.

Lemma is_nan_spec (u : float) :
  is_nan u = false -> FloatOps.Prim2SF u <> SpecFloat.S754_nan.
Proof.
  unfold is_nan. rewrite FloatAxioms.eqb_spec. intros H Hn.
  rewrite Hn in H. discriminate H.
Qed.

(** Two doubles that are not NaN are comparable. *)
Lemma float_trichotomy (u v : float) :
  is_nan u = false -> is_nan v = false ->
  (u <? v)%float = false -> (v <? u)%float = false ->
  (u <=? v)%float = true /\ (v <=? u)%float = true.
Proof.
  intros Hu Hv. rewrite !FloatAxioms.ltb_spec, !FloatAxioms.leb_spec.
  unfold SpecFloat.SFltb, SpecFloat.SFleb.
  rewrite (SFcompare_antisym (FloatOps.Prim2SF u) (FloatOps.Prim2SF v)).
  destruct (SpecFloat.SFcompare (FloatOps.Prim2SF u) (FloatOps.Prim2SF v))
    as [[| |]|] eqn:Hc; cbn; intros H1 H2; try discriminate; auto.
  destruct (SFcompare_none _ _ Hc) as [Hn|Hn];
    [now apply is_nan_spec in Hu|now apply is_nan_spec in Hv].
Qed.

Lemma float_ltb_leb (u v : float) :
  (u <? v)%float = true -> (u <=? v)%float = true.
Proof.
  rewrite FloatAxioms.ltb_spec, FloatAxioms.leb_spec.
  unfold SpecFloat.SFltb, SpecFloat.SFleb.
  destruct (SpecFloat.SFcompare _ _) as [[| |]|]; auto.
Qed.

Lemma SFcompare_refl (f : SpecFloat.spec_float) :
  f <> SpecFloat.S754_nan -> SpecFloat.SFcompare f f = Some Eq.
Proof.
  destruct f as [s|s| |s m e]; intros H; try (now elim H);
    destruct s; cbn; try reflexivity;
    now rewrite BinInt.Z.compare_refl, BinPos.Pos.compare_cont_refl.
Qed.

Lemma is_nan_false (u : float) :
  FloatOps.Prim2SF u <> SpecFloat.S754_nan -> is_nan u = false.
Proof.
  intros H. unfold is_nan. rewrite FloatAxioms.eqb_spec.
  unfold SpecFloat.SFeqb. now rewrite SFcompare_refl.
Qed.

Lemma float_ltb_not_nan (u v : float) :
  (u <? v)%float = true -> is_nan u = false /\ is_nan v = false.
Proof.
  rewrite FloatAxioms.ltb_spec. unfold SpecFloat.SFltb. intros H.
  split; apply is_nan_false; intros Hn; rewrite Hn in H;
    [|destruct (FloatOps.Prim2SF u)]; discriminate H.
Qed.

(** ** The proximity *)

Lemma Math_min_unit (m : float) :
  is_nan m = false -> (0 <=? m)%float = true -> inUnit (Math_min m 1) = true.
Proof.
  intros Hm H0. unfold Math_min. rewrite Hm.
  change (is_nan 1) with false. cbn [orb].
  destruct (m <? 1)%float eqn:H1.
  - unfold inUnit. now rewrite H0, (float_ltb_leb _ _ H1).
  - destruct (1 <? m)%float eqn:H2; [reflexivity|].
    destruct (get_sign m); [|reflexivity].
    unfold inUnit. rewrite H0.
    now destruct (float_trichotomy m 1 Hm eq_refl H1 H2) as [-> _].
Qed.

Lemma clamp01_spec (v : float) :
  (is_nan v = true -> is_nan (clamp01 v) = true)
  /\ (is_nan v = false -> inUnit (clamp01 v) = true).
Proof.
  unfold clamp01. split; intros Hv.
  - unfold Math_max. rewrite Hv. reflexivity.
  - unfold Math_max. rewrite Hv. change (is_nan 0) with false. cbn [orb].
    destruct (v <? 0)%float eqn:H1; [reflexivity|].
    destruct (0 <? v)%float eqn:H2.
    + apply Math_min_unit; [exact Hv|now apply float_ltb_leb].
    + destruct (get_sign v); [reflexivity|].
      apply Math_min_unit; [exact Hv|].
      now destruct (float_trichotomy v 0 Hv eq_refl H1 H2) as [_ ->].
Qed.

(** X15. The proximity that [processGesture] stores is clamped: for every
    list of landmarks, of any length and with any coordinates, it is a number
    between 0 and 1, or NaN (which it is exactly when the scaled bounding-box
    area is NaN).  The stored value does not depend on what was stored
    before, and is stored also when the call ends in a TypeError. *)
Theorem proximity_is_clamped (landmarks : list Landmark) (g : GestureService) :
  handProximity (fst (processGesture landmarks g)) = proximityOf landmarks
  /\ (inUnit (proximityOf landmarks) = true
      \/ is_nan (proximityOf landmarks) = true).
Proof.
  split.
  - unfold processGesture. destruct (forEach _ _ _ _); reflexivity.
  - unfold proximityOf.
    destruct (fold_left grow landmarks (1, 0, 1, 0)%float) as [[[minX maxX] minY] maxY].
    set (v := ((((maxX - minX) * (maxY - minY)) - 0.05) / 0.25)%float).
    change (Math_min (Math_max v 0) 1) with (clamp01 v).
    destruct (clamp01_spec v) as [Hn Hu].
    destruct (is_nan v); [right; now apply Hn|left; now apply Hu].
Qed.

(** ** Which landmarks decide the gesture *)

(** X16. The gesture is decided by nine landmarks only: the wrist and the
    PIP joints and tips of the four fingers.  Two landmark lists of at least
    21 points that agree on these nine are given the same gesture, whatever
    the thumb, the knuckles, the DIP joints and any further points are, and
    whatever gesture and proximity were stored before. *)
Theorem gesture_reads_nine_landmarks
        (landmarks landmarks' : list Landmark) (g g' : GestureService) :
  (21 <= length landmarks)%nat ->
  (21 <= length landmarks')%nat ->
  (forall i, In i decisive -> nth_error landmarks i = nth_error landmarks' i) ->
  currentGesture (fst (processGesture landmarks g))
  = currentGesture (fst (processGesture landmarks' g')).
Proof.
  intros H H' Hsame.
  rewrite (processGesture_enough landmarks g H),
          (processGesture_enough landmarks' g' H').
  cbn [fst currentGesture]. do 2 f_equal.
  assert (E : forall f, curled landmarks f = curled landmarks' f).
  { intros f. unfold curled.
    rewrite (Hsame (tipOf f)), (Hsame (pipOf f)), (Hsame 0%nat);
      [reflexivity| |destruct f|destruct f]; cbn; auto 12. }
  unfold curledFingers. cbn [filter]. now rewrite !E.
Qed.

Lemma gesture_reads_nine_landmarks_witness :
  currentGesture (fst (processGesture (hand true true true true) idleService))
  = currentGesture (fst (processGesture otherFist (mkGestureService NONE 0.5))).
Proof.
  apply gesture_reads_nine_landmarks.
  - vm_compute. lia.
  - vm_compute. lia.
  - intros i Hi. cbn in Hi.
    repeat (destruct Hi as [<-|Hi]; [reflexivity|]). destruct Hi.
Defined.

(** ** The prediction loop *)

Lemma processGesture_short (landmarks : list Landmark) (g : GestureService) :
  (length landmarks < 21)%nat ->
  processGesture landmarks g
  = (mkGestureService (currentGesture g) (proximityOf landmarks), TypeError).
Proof.
  intros H. unfold processGesture.
  cut (forEach (curlStep landmarks (index landmarks (Some 0%nat)) [5; 9; 13; 17]%nat)
               [8; 12; 16; 20]%nat 0%nat 0
       = TypeError).
  { intros ->. reflexivity. }
  clear g. revert H.
  do 21 (destruct landmarks as [|? landmarks]; [intros _; reflexivity|]).
  cbn [length]. lia.
Qed.

(** X17. A call of [predictWebcam] on a service that is set up requests the
    next animation frame exactly when it completes, and then it has restored
    the canvas as often as it saved it.  A call that ends in a TypeError
    requests no frame, so the loop ends there, and leaves the canvas saved
    once more than restored. *)
Theorem next_frame_iff_completed (currentTime : float)
        (hands : option (list (list Landmark))) (t : Tracker) :
  isSetUp t = true ->
  match predictWebcam currentTime hands t with
  | (t', Normal _) =>
      framesRequested t' = S (framesRequested t)
      /\ (saves t' + restores t = saves t + restores t')%nat
  | (t', TypeError) =>
      framesRequested t' = framesRequested t
      /\ (saves t' + restores t = S (saves t + restores t'))%nat
  end.
Proof.
  intros Hs. unfold predictWebcam, saves, restores. rewrite Hs. cbn [negb].
  destruct (negb (lastVideoTime t =? currentTime)%float).
  - destruct hands as [[|landmarks rest]|].
    + cbn. split; lia.
    + cbn [service draw with_service].
      destruct (processGesture landmarks (service t)) as [g [u|]]; cbn; split; lia.
    + cbn. split; lia.
  - cbn. split; lia.
Qed.

Lemma next_frame_iff_completed_witness :
  framesRequested (fst (predictWebcam 0.04 (Some [twentyPoints]) setUp)) = 0%nat
  /\ framesRequested (fst (predictWebcam 0.04 (Some [twentyTwoPoints]) setUp)) = 1%nat.
Proof.
  pose proof (next_frame_iff_completed 0.04 (Some [twentyPoints]) setUp eq_refl) as H20.
  pose proof (next_frame_iff_completed 0.04 (Some [twentyTwoPoints]) setUp eq_refl) as H22.
  split.
  - revert H20.
    replace (predictWebcam 0.04 (Some [twentyPoints]) setUp)
      with (fst (predictWebcam 0.04 (Some [twentyPoints]) setUp),
            @TypeError unit) by (vm_compute; reflexivity).
    intros [H _]. exact H.
  - revert H22.
    replace (predictWebcam 0.04 (Some [twentyTwoPoints]) setUp)
      with (fst (predictWebcam 0.04 (Some [twentyTwoPoints]) setUp),
            Normal tt) by (vm_compute; reflexivity).
    intros [H _]. exact H.
Defined.

(** X18. A first hand of fewer than 21 landmarks in a new video frame ends
    the prediction loop: the call ends in a TypeError and requests no further
    frame.  The frame counts as seen, the proximity of the short hand has
    been stored, the gesture is the one stored before, and the canvas is
    left cleared and not restored.  Hands after the first play no part. *)
Theorem short_hand_stops_the_loop (currentTime : float)
        (landmarks : list Landmark) (others : list (list Landmark)) (t : Tracker) :
  isSetUp t = true ->
  (lastVideoTime t =? currentTime)%float = false ->
  (length landmarks < 21)%nat ->
  predictWebcam currentTime (Some (landmarks :: others)) t
  = (mkTracker (mkGestureService (currentGesture (service t)) (proximityOf landmarks))
               currentTime true (framesRequested t)
               (ClearRect :: Save :: canvasOps t),
     TypeError).
Proof.
  intros Hs Hnew Hshort. unfold predictWebcam. rewrite Hs, Hnew. cbn [negb].
  cbn [service draw]. rewrite (processGesture_short landmarks _ Hshort).
  reflexivity.
Qed.

Lemma short_hand_stops_the_loop_witness :
  snd (predictWebcam 0.04 (Some [twentyPoints; hand true true true true]) setUp)
  = TypeError.
Proof.
  rewrite (short_hand_stops_the_loop 0.04 twentyPoints
             [hand true true true true] setUp eq_refl eq_refl);
    [reflexivity|vm_compute; lia].
Defined.

(** X19. A video frame is processed once.  After a completed call for a
    video time that is a number, a further call for the same time changes
    neither the stored gesture and proximity nor the canvas, whatever the
    landmarker would report: it only requests the next frame. *)
Theorem same_frame_is_not_processed_again (currentTime : float)
        (hands hands' : option (list (list Landmark))) (t : Tracker) :
  isSetUp t = true ->
  isTime currentTime = true ->
  snd (predictWebcam currentTime hands t) = Normal tt ->
  predictWebcam currentTime hands' (fst (predictWebcam currentTime hands t))
  = (requestAnimationFrame (fst (predictWebcam currentTime hands t)), Normal tt).
Proof.
  intros Hs Ht. unfold isTime in Ht.
  assert (Hseen : forall t1, isSetUp t1 = true ->
                    (lastVideoTime t1 =? currentTime)%float = true ->
                    predictWebcam currentTime hands' t1
                    = (requestAnimationFrame t1, Normal tt)).
  { intros t1 H1 H2. unfold predictWebcam. now rewrite H1, H2. }
  intros Hdone.
  cut (isSetUp (fst (predictWebcam currentTime hands t)) = true
       /\ (lastVideoTime (fst (predictWebcam currentTime hands t)) =? currentTime)%float
          = true).
  { intros [H1 H2]. now apply Hseen. }
  revert Hdone. unfold predictWebcam. rewrite Hs. cbn [negb].
  destruct (lastVideoTime t =? currentTime)%float eqn:Hlast; cbn [negb].
  - intros _. cbn. auto.
  - destruct hands as [[|landmarks rest]|].
    + intros _. cbn. auto.
    + cbn [service draw].
      destruct (processGesture landmarks (service t)) as [g [u|]];
        [|intros H; discriminate H].
      intros _. cbn. auto.
    + intros _. cbn. auto.
Qed.

Lemma same_frame_is_not_processed_again_witness :
  service (fst (predictWebcam 0.04 None
                  (fst (predictWebcam 0.04 (Some [hand true true true false]) setUp))))
  = service (fst (predictWebcam 0.04 (Some [hand true true true false]) setUp)).
Proof.
  rewrite (same_frame_is_not_processed_again 0.04
             (Some [hand true true true false]) None setUp eq_refl eq_refl);
    [reflexivity|vm_compute; reflexivity].
Defined.

(** ** The message under the paper *)

(** X20. Every paper state has a message of its own: the seven messages
    differ from one another and none is empty, so the text on the screen
    tells the state. *)
Theorem message_tells_the_state (s s' : PaperState) :
  (currentMessage s = currentMessage s' <-> s = s')
  /\ currentMessage s <> EmptyString.
Proof.
  split; [split|].
  - destruct s, s'; intros H; try reflexivity; discriminate H.
  - intros ->. reflexivity.
  - destruct s; discriminate.
Qed.

(** * Further properties of the component, continued *)

(** ** What a burn costs *)

Lemma elapse_paid_fields (ms : N) (a : App) :
  count isCrumpleWrite (elapse ms a) = count isCrumpleWrite a
  /\ crumples (elapse ms a) = crumples a.
Proof.
  split; apply elapse_keeps; try reflexivity; intros [|] b; reflexivity.
Qed.

Lemma step_paidFor (e : Event) (a : App) : paidFor a -> paidFor (step e a).
Proof.
  unfold paidFor, count, crumples. intros (H1 & H2).
  destruct e as [g p| |fs|fs| |ms]; cbn [step].
  - hgl_cases g p a;
      cbn [crumpledFrom crumplesBehind filter isCrumpleWrite isCrumpleCall length] in *;
      rewrite ?Hp in *; cbn [crumplesBehind] in *; split; lia.
  - unfold triggerUpload. destruct (PaperState_eqb _ _); fields;
      cbn [filter isCrumpleWrite isCrumpleCall]; auto.
  - unfold onFileSelected, handleFile. destruct fs as [[|f fs]|]; fields;
      cbn [crumplesBehind filter isCrumpleWrite isCrumpleCall] in *; split;
      auto; lia.
  - unfold onDrop, handleFile. fields.
    destruct (negb _); [|destruct fs as [[|f fs]|]]; fields;
      cbn [crumplesBehind filter isCrumpleWrite isCrumpleCall] in *; split;
      auto; lia.
  - unfold reset. fields.
    cbn [crumplesBehind filter isCrumpleWrite isCrumpleCall] in *. split; lia.
  - destruct (elapse_paper ms a) as (E1 & _).
    destruct (elapse_paid_fields ms a) as (F1 & F2).
    unfold count, crumples in *. rewrite E1, F1, F2.
    destruct (existsb _ _); cbn [crumplesBehind]; split; lia.
Qed.

(** X21. No paper is crumpled or burnt for free: whatever events the
    component has seen since it was created, a paper in state CRUMPLED_1 has
    at least 6 FIST samples behind it, one in CRUMPLED_2 at least 12, and one
    in CRUMPLED_FINAL or BURNING at least 18. *)
Theorem stages_are_paid_in_fists (rnd : nat -> float) (es : list Event) :
  (6 * crumplesBehind (paperState (run es (initial rnd))) <= fists es)%nat.
Proof.
  assert (H : forall es b, paidFor b -> paidFor (run es b)).
  { clear. induction es as [|e es IH]; intros b Hb; [exact Hb|].
    cbn [run fold_left]. apply IH. now apply step_paidFor. }
  destruct (H es (initial rnd)) as [H1 H2].
  { unfold paidFor, count, crumples. cbn. split; lia. }
  pose proof (run_crumple_cost es (initial rnd)) as H3. cbn in H3.
  unfold count in *. lia.
Qed.

(** ** Files *)

Lemma handleGameLoop_file (g : GestureType) (p : float) (a : App) :
  fileName (handleGameLoop g p a) = fileName a
  /\ fileType (handleGameLoop g p a) = fileType a.
Proof. hgl_cases g p a; split; reflexivity. Qed.

Lemma elapse_file (ms : N) (a : App) :
  fileName (elapse ms a) = fileName a /\ fileType (elapse ms a) = fileType a.
Proof.
  split; apply elapse_keeps; try reflexivity; intros [|] b; reflexivity.
Qed.

Lemma loadsFirst_app (f : File) (es es' : list Event) :
  loadsFirst f es -> loadsFirst f (es ++ es').
Proof.
  intros (fs & [H|H]); exists fs; [left|right]; apply in_or_app; now left.
Qed.

Lemma step_showsFirstFile (es : list Event) (e : Event) (a : App) :
  showsFirstFile es a -> showsFirstFile (es ++ [e]) (step e a).
Proof.
  intros Ha.
  assert (Hkeep : forall b, fileName b = fileName a -> fileType b = fileType a ->
                            showsFirstFile (es ++ [e]) b).
  { intros b Hn Ht. destruct Ha as [Ha|(f & Hf & H1 & H2)].
    - left. congruence.
    - right. exists f. split; [now apply loadsFirst_app|]. split; congruence. }
  assert (Hload : forall f fs b,
             (e = Drop (Some (f :: fs)) \/ e = FileSelected (Some (f :: fs))) ->
             fileName b = file_name f -> fileType b = file_type f ->
             showsFirstFile (es ++ [e]) b).
  { intros f fs b He Hn Ht. right. exists f. split; [|split; assumption].
    exists fs. destruct He as [-> | ->]; [left|right];
      apply in_or_app; right; now left. }
  destruct e as [g p| |fs|fs| |ms]; cbn [step].
  - destruct (handleGameLoop_file g p a) as [H1 H2]. now apply Hkeep.
  - apply Hkeep; unfold triggerUpload; destruct (PaperState_eqb _ _); reflexivity.
  - destruct fs as [[|f fs]|]; try (apply Hkeep; reflexivity).
    apply (Hload f fs); [now right|reflexivity|reflexivity].
  - unfold onDrop. fields.
    destruct (negb (PaperState_eqb (paperState a) IDLE));
      [apply Hkeep; reflexivity|].
    destruct fs as [[|f fs]|]; try (apply Hkeep; reflexivity).
    apply (Hload f fs); [now left|reflexivity|reflexivity].
  - left. reflexivity.
  - destruct (elapse_file ms a) as [H1 H2]. now apply Hkeep.
Qed.

(** X22. The file on show is a first file.  Whatever events the component
    has seen since it was created, the file name it holds is empty or is the
    name of the first file of one of the drops or selections among these
    events, and the file type it holds is then the type of that same file:
    the second and later files of a drop or a selection never show. *)
Theorem shown_file_is_a_first_file (rnd : nat -> float) (es : list Event) :
  showsFirstFile es (run es (initial rnd)).
Proof.
  induction es as [|e es IH] using rev_ind.
  - left. reflexivity.
  - rewrite run_app. cbn [run fold_left]. now apply step_showsFirstFile.
Qed.
